(** * Turkish licence-plate scoring engine (scoring.js)

    A shallow embedding of [parseTurkishPlate], [detectPlateType],
    [isSequential] and [calculatePlateScore], with the string and number
    primitives of JavaScript they call, followed by the properties of the
    engine.

    Strings.  A JavaScript string is a sequence of UTF-16 code units.  We
    model the strings whose code units are below 256 as [string] and read
    an [ascii] as the code unit with that number (so the characters above
    127 are those of the Latin-1 supplement).

    Numbers.  A JavaScript number is a binary64 float.  The values the
    engine handles are integers and the constants 1.5, 2.5 and 7.5; the
    integer-valued variables ([letterSum], [digitSum], [numDigits]) are
    computed in [Z] and everything else in [Q].  Sums and products of such
    values are multiples of 1/8, which binary64 represents exactly below
    2^50: rational arithmetic is what the engine computes as long as the
    values stay in that range, as they do on every plate of the canonical
    shape ([canonical_total_exact] at the end of the file). *)

From Stdlib Require Import String Ascii List ZArith NArith QArith Bool Lia Lqa.
From Stdlib Require DecimalString.
Import ListNotations.

Local Close Scope Q_scope.
Local Open Scope string_scope.

(** ** JavaScript primitives *)

Module JS.

(** The code unit of a character, [charCodeAt]. *)
Definition code (c : ascii) : N := N_of_ascii c.

Definition between (lo hi n : N) : bool := ((lo <=? n) && (n <=? hi))%N.

(** [\d] *)
Definition isDigit (c : ascii) : bool := between 48 57 (code c).

(** [[A-Z]] *)
Definition isUpper (c : ascii) : bool := between 65 90 (code c).

(** [\s], below 256: TAB, LF, VT, FF, CR, SPACE and NO-BREAK SPACE. *)
Definition isSpace (c : ascii) : bool :=
  (between 9 13 (code c) || (code c =? 32) || (code c =? 160))%N.

(** [[\s-]] *)
Definition isSeparator (c : ascii) : bool :=
  (isSpace c || (code c =? 45))%N.

(** [s.replace(/[\s-]/g, "")] *)
Fixpoint stripSeparators (s : string) : string :=
  match s with
  | EmptyString => EmptyString
  | String c s' =>
      if isSeparator c then stripSeparators s'
      else String c (stripSeparators s')
  end.

(** The upper-case form of one code unit.  [a]-[z] and the lower-case
    letters of the Latin-1 supplement move down by 32, the sharp s (223)
    becomes the two letters SS.  The upper-case forms of the micro sign
    (181) and of y with diaeresis (255) lie above 255; like the characters
    themselves they are neither digits, nor letters [A]-[Z], nor
    separators, and they are left in place here. *)
Definition upperChar (c : ascii) : string :=
  let n := code c in
  if between 97 122 n then String (ascii_of_N (n - 32)) ""
  else if (n =? 223)%N then "SS"
  else if between 224 254 n && negb (n =? 247)%N
       then String (ascii_of_N (n - 32)) ""
  else String c "".

(** [s.toUpperCase()] *)
Fixpoint toUpperCase (s : string) : string :=
  match s with
  | EmptyString => EmptyString
  | String c s' => upperChar c ++ toUpperCase s'
  end.

(** [s.substring(n)]: the string without its first [n] code units, empty
    when [n] exceeds the length. *)
Fixpoint substring (n : nat) (s : string) : string :=
  match n, s with
  | O, _ => s
  | S _, EmptyString => EmptyString
  | S n', String _ s' => substring n' s'
  end.

Fixpoint replicate (n : nat) (c : ascii) : string :=
  match n with
  | O => EmptyString
  | S n' => String c (replicate n' c)
  end.

(** [s.padStart(n, fill)] for a one-character filler. *)
Definition padStart (n : nat) (fill : ascii) (s : string) : string :=
  replicate (n - String.length s) fill ++ s.

(** The longest prefix of [s] made of characters satisfying [p]: what a
    greedy [p+] at the start of [s] consumes. *)
Fixpoint leadingRun (p : ascii -> bool) (s : string) : string :=
  match s with
  | EmptyString => EmptyString
  | String c s' => if p c then String c (leadingRun p s') else EmptyString
  end.

(** The same with at most [n] characters: a greedy [p{1,n}]. *)
Fixpoint leadingRunUpTo (n : nat) (p : ascii -> bool) (s : string) : string :=
  match n, s with
  | S n', String c s' =>
      if p c then String c (leadingRunUpTo n' p s') else EmptyString
  | _, _ => EmptyString
  end.

(** The result of [s.match(/^(...)/)] for a pattern that needs at least
    one character: the captured group, or [None] for [null]. *)
Definition captured (run : string) : option string :=
  match run with
  | EmptyString => None
  | _ => Some run
  end.

(** [a < b] on strings: the first differing code unit decides, a proper
    prefix is smaller. *)
Fixpoint ltb (a b : string) : bool :=
  match a, b with
  | _, EmptyString => false
  | EmptyString, String _ _ => true
  | String x a', String y b' =>
      if (code x <? code y)%N then true
      else if (code y <? code x)%N then false
      else ltb a' b'
  end.

(** [a >= b] is [!(a < b)] and [a <= b] is [!(b < a)]. *)
Definition geb (a b : string) : bool := negb (ltb a b).
Definition leb (a b : string) : bool := negb (ltb b a).

(** [s.startsWith(p)] *)
Fixpoint startsWith (s p : string) : bool :=
  match p, s with
  | EmptyString, _ => true
  | String _ _, EmptyString => false
  | String y p', String x s' => Ascii.eqb x y && startsWith s' p'
  end.

(** [s.includes(p)] *)
Fixpoint includes (s p : string) : bool :=
  startsWith s p ||
  match s with
  | EmptyString => false
  | String _ s' => includes s' p
  end.

(** [new Set(s.split("")).size]: the number of distinct code units. *)
Definition distinct (s : string) : nat :=
  List.length (nodup ascii_dec (list_ascii_of_string s)).

(** The value of a digit in radix [r], if it is one. *)
Definition digitValue (r : Z) (c : ascii) : option Z :=
  let n := Z.of_N (code c) in
  let v := if isDigit c then Some (n - 48)%Z
           else if between 97 122 (code c) then Some (n - 87)%Z
           else if between 65 90 (code c) then Some (n - 55)%Z
           else None in
  match v with
  | Some d => if (d <? r)%Z then Some d else None
  | None => None
  end.

(** The digits of radix [r] at the start of [s], read most significant
    first: [None] when there is none. *)
Fixpoint readDigits (r : Z) (acc : option Z) (s : string) : option Z :=
  match s with
  | EmptyString => acc
  | String c s' =>
      match digitValue r c with
      | Some d =>
          readDigits r (Some (match acc with
                              | Some a => a * r + d
                              | None => d
                              end)%Z) s'
      | None => acc
      end
  end.

Fixpoint trimStart (s : string) : string :=
  match s with
  | String c s' => if isSpace c then trimStart s' else s
  | EmptyString => EmptyString
  end.

(** [parseInt(s)] with no radix: leading white space is skipped, a sign
    and a [0x] prefix are honoured, the digits up to the first character
    that is not one are read.  [None] stands for [NaN].  The number read
    is kept in [Z]; it is the number the built-in returns as long as it
    is below 2^53, above which the built-in rounds to binary64 (the
    rounding is monotone, so that it leaves the comparisons with 9, 99
    and 999 of the digit tier as they are). *)
Definition parseInt (s : string) : option Z :=
  let s1 := trimStart s in
  let '(sign, s2) :=
    match s1 with
    | String "-" s' => ((-1)%Z, s')
    | String "+" s' => (1%Z, s')
    | _ => (1%Z, s1)
    end in
  let '(radix, s3) :=
    match s2 with
    | String "0" (String "x" s') => (16%Z, s')
    | String "0" (String "X" s') => (16%Z, s')
    | _ => (10%Z, s2)
    end in
  option_map (Z.mul sign) (readDigits radix None s3).

(** [v || d] for an integer-valued [v]: [NaN] and 0 are falsy. *)
Definition orZ (v : option Z) (d : Z) : Z :=
  match v with
  | Some n => if (n =? 0)%Z then d else n
  | None => d
  end.

(** [v || d] for a table lookup: [undefined] and 0 are falsy. *)
Definition orQ (v : option Q) (d : Q) : Q :=
  match v with
  | Some q => if Qeq_bool q 0 then d else q
  | None => d
  end.

End JS.

(** ** The engine *)

Module Scoring.
Import JS.

(** A JavaScript object used as a table: the own properties in
    declaration order, a key that is absent reads as [undefined]
    ([None]).  Properties inherited from [Object.prototype] are not
    modelled: the engine reads the tables at a province code (empty or
    two digits) and at a plate type only. *)
Fixpoint lookup {K V : Type} (eqb : K -> K -> bool) (k : K)
    (table : list (K * V)) : option V :=
  match table with
  | [] => None
  | (k', v) :: rest => if eqb k k' then Some v else lookup eqb k rest
  end.

Local Open Scope Q_scope.

Definition provinceTiers : list (string * Q) :=
  [ ("01", 1.5); ("06", 1.5); ("07", 1.5); ("16", 1.5); ("34", 1.5);
    ("35", 1.5);
    ("02", 2.5); ("04", 2.5); ("09", 2.5); ("10", 2.5); ("11", 2.5);
    ("20", 2.5); ("21", 2.5); ("25", 2.5); ("26", 2.5); ("27", 2.5);
    ("31", 2.5); ("38", 2.5); ("41", 2.5); ("42", 2.5); ("43", 2.5);
    ("44", 2.5); ("45", 2.5); ("46", 2.5); ("47", 2.5); ("48", 2.5);
    ("54", 2.5); ("55", 2.5); ("59", 2.5); ("61", 2.5);
    ("03", 5); ("05", 5); ("08", 5); ("12", 5); ("13", 5); ("14", 5);
    ("15", 5); ("17", 5); ("18", 5); ("19", 5); ("22", 5); ("23", 5);
    ("24", 5); ("28", 5); ("29", 5); ("30", 5); ("32", 5); ("36", 5);
    ("37", 5); ("39", 5); ("40", 5); ("49", 5); ("50", 5); ("51", 5);
    ("52", 5); ("53", 5); ("56", 5); ("57", 5); ("58", 5); ("60", 5);
    ("62", 5); ("63", 5); ("64", 5); ("65", 5); ("66", 5); ("67", 5);
    ("68", 5); ("69", 5); ("70", 5); ("71", 5); ("72", 5); ("73", 5);
    ("74", 5); ("77", 5); ("78", 5); ("79", 5); ("80", 5);
    ("33", 10); ("75", 10); ("76", 10); ("81", 10);
    ("default", 1) ].

(** [provinceTiers.default], a property the table has. *)
Definition provinceTiers_default : Q :=
  match lookup String.eqb "default" provinceTiers with
  | Some v => v
  | None => 0%Q
  end.

Inductive PlateType : Set :=
  | STANDARD | UNIVERSITY | POLICE | GENDARMERIE | COAST_GUARD
  | DIPLOMATIC | CONSULATE | FOREIGN | TAXI.

Definition PlateType_eqb (a b : PlateType) : bool :=
  match a, b with
  | STANDARD, STANDARD | UNIVERSITY, UNIVERSITY | POLICE, POLICE
  | GENDARMERIE, GENDARMERIE | COAST_GUARD, COAST_GUARD
  | DIPLOMATIC, DIPLOMATIC | CONSULATE, CONSULATE | FOREIGN, FOREIGN
  | TAXI, TAXI => true
  | _, _ => false
  end.

Definition specialPlateTypes : list (PlateType * Q) :=
  [ (STANDARD, 1); (UNIVERSITY, 15); (POLICE, 20); (GENDARMERIE, 25);
    (COAST_GUARD, 25); (DIPLOMATIC, 30); (CONSULATE, 25); (FOREIGN, 20);
    (TAXI, 15) ].

Local Close Scope Q_scope.

Record ParsedPlate : Set := {
  provinceCode : string;
  letters : string;
  digits : string
}.

(** What [m ? m[1] : ""] keeps of a match. *)
Definition groupOrEmpty (m : option string) : string :=
  match m with
  | Some g => g
  | None => ""
  end.

Definition parseTurkishPlate (plateText : string) : ParsedPlate :=
  let plateText := toUpperCase (stripSeparators plateText) in
  let provinceMatch := captured (leadingRunUpTo 2 isDigit plateText) in
  let provinceCode :=
    match provinceMatch with
    | Some g => padStart 2 "0" g
    | None => ""
    end in
  let remainingText := substring (String.length provinceCode) plateText in
  let lettersMatch := captured (leadingRun isUpper remainingText) in
  let letters := groupOrEmpty lettersMatch in
  let remainingText := substring (String.length letters) remainingText in
  let digitsMatch := captured (leadingRun isDigit remainingText) in
  let digits := groupOrEmpty digitsMatch in
  {| provinceCode := provinceCode; letters := letters; digits := digits |}.

Definition detectPlateType (letters : string) : PlateType :=
  if letters =? "AA" then UNIVERSITY
  else if (letters =? "A") || (letters =? "AAA") then POLICE
  else if letters =? "JAA" then GENDARMERIE
  else if letters =? "SGH" then COAST_GUARD
  else if letters =? "CD" then DIPLOMATIC
  else if letters =? "CC" then CONSULATE
  else if (String.length letters =? 2)%nat
          && geb letters "MA" && leb letters "MZ" then FOREIGN
  else if (String.length letters =? 3)%nat
          && geb letters "TAA" && leb letters "TKZ" then TAXI
  else STANDARD.

Definition sequentialPatterns : list string :=
  [ "ABC"; "BCD"; "CDE"; "DEF"; "EFG"; "FGH"; "GHI"; "HIJ"; "IJK"; "JKL";
    "KLM"; "LMN"; "MNO"; "NOP"; "OPR"; "PRS"; "RST"; "STU"; "TUV"; "UVY";
    "VYZ" ].

Definition isSequential (letters : string) : bool :=
  existsb (fun pattern => includes letters pattern) sequentialPatterns.

(** The two adjustments of the letter score made for a standard plate
    with at least two letters, each taking the score so far and returning
    the score after it: the chain [if all same ... else if sequential],
    then the separate [if] on three or more equal letters. *)
Definition repeatOrSequence (letters : string) (letterScore : Q) : Q :=
  if (distinct letters =? 1)%nat then
    if (3 <=? String.length letters)%nat then 20%Q else 10%Q
  else if isSequential letters then 5%Q
  else letterScore.

Definition allSameBoost (letters : string) (letterScore : Q) : Q :=
  if (3 <=? String.length letters)%nat && (distinct letters =? 1)%nat
  then 7.5%Q
  else letterScore.

(** A string is truthy when it is not empty. *)
Definition nonEmpty (s : string) : bool :=
  match s with
  | EmptyString => false
  | String _ _ => true
  end.

(** The letter score before the letter product is added: the initial 1
    and the block guarded by [plateType === "STANDARD" && letters]. *)
Definition letterPatternScore (plateType : PlateType) (letters : string)
    : Q :=
  let letterScore := 1%Q in
  if PlateType_eqb plateType STANDARD && nonEmpty letters then
    if (2 <=? String.length letters)%nat then
      allSameBoost letters (repeatOrSequence letters letterScore)
    else letterScore
  else letterScore.

(** The loop over the letters: [letterSum] starts at 1 and is multiplied
    by the alphabet position of every character that has one.  The
    product is computed in [Z]; it is the number the code computes as long
    as it stays below 2^53, which it does for up to eleven letters
    (26^11 < 2^52). *)
Definition letterSum (letters : string) : Z :=
  fold_left
    (fun letterSum c =>
       let letterPosition := (Z.of_N (code c) - 64)%Z in
       if ((1 <=? letterPosition) && (letterPosition <=? 26))%Z
       then (letterSum * letterPosition)%Z
       else letterSum)
    (list_ascii_of_string letters) 1%Z.

(** The loop over the digits: [digitSum] starts at 0 and grows by
    [parseInt(digitString[i]) || 1] for every character. *)
Definition digitSum (digits : string) : Z :=
  fold_left
    (fun digitSum c => (digitSum + orZ (parseInt (String c "")) 1)%Z)
    (list_ascii_of_string digits) 0%Z.

Definition digitScore (numDigits : Z) : Q :=
  if (numDigits <=? 9)%Z then 10%Q
  else if (numDigits <=? 99)%Z then 5%Q
  else if (numDigits <=? 999)%Z then 2.5%Q
  else 1%Q.

Module Breakdown.
Record t : Set := {
  province : Q;
  letters : Q;
  digits : Q;
  digitsum : Q;
  special : Q
}.
End Breakdown.

Record ScoreResult : Set := {
  totalScore : Q;
  plateType : PlateType;
  breakdown : Breakdown.t;
  parsed : ParsedPlate
}.

Definition calculatePlateScore (plateText : string) : ScoreResult :=
  let p := parseTurkishPlate plateText in
  let plateType := detectPlateType (letters p) in
  let provinceScore :=
    orQ (lookup String.eqb (provinceCode p) provinceTiers)
        provinceTiers_default in
  let letterScore := letterPatternScore plateType (letters p) in
  let letterScore := (letterScore + inject_Z (letterSum (letters p)))%Q in
  let numDigits := orZ (parseInt (digits p)) 1 in
  let digitSum := inject_Z (digitSum (digits p)) in
  let digitScore := digitScore numDigits in
  let specialScore := orQ (lookup PlateType_eqb plateType specialPlateTypes) 1%Q in
  let totalScore :=
    ((letterScore + digitSum) * digitScore * provinceScore * specialScore)%Q in
  {| totalScore := totalScore;
     plateType := plateType;
     breakdown :=
       {| Breakdown.province := provinceScore;
          Breakdown.letters := letterScore;
          Breakdown.digits := digitScore;
          Breakdown.digitsum := digitSum;
          Breakdown.special := specialScore |};
     parsed := p |}.

End Scoring.

(** ** The specification's reading of the engine *)

Module Spec.
Import JS Scoring.

(** Every character of [s] satisfies [p]. *)
Definition allOf (p : ascii -> bool) (s : string) : bool :=
  forallb p (list_ascii_of_string s).

(** The shape a plate is expected to have once separators are stripped
    and letters upper-cased, [pmin] to [pmax] digits, one to three
    letters, one to four digits: the language of the caller's
    [/^\d{1,2}[A-Z]{1,3}\d{1,4}$/] when [pmin = 1] and [pmax = 2]. *)
Definition Shaped (pmin pmax : nat) (s : string) : Prop :=
  exists p l d : string,
    s = p ++ l ++ d /\
    allOf isDigit p = true /\ pmin <= String.length p <= pmax /\
    allOf isUpper l = true /\ 1 <= String.length l <= 3 /\
    allOf isDigit d = true /\ 1 <= String.length d <= 4.

Definition Canonical : string -> Prop := Shaped 1 2.

(** Normalization: separators stripped, then letters upper-cased. *)
Definition normalize (plateText : string) : string :=
  toUpperCase (stripSeparators plateText).

(** The three components of a parsed plate put back together. *)
Definition reassemble (p : ParsedPlate) : string :=
  provinceCode p ++ letters p ++ digits p.

(** Plain string ordering, code point by code point. *)
Definition within (lo hi s : string) : bool :=
  String.leb lo s && String.leb s hi.

(** The nine rules of the classifier in priority order; the ninth is the
    default of [classify]. *)
Definition rules : list ((string -> bool) * PlateType) :=
  [ (fun l => l =? "AA", UNIVERSITY);
    (fun l => (l =? "A") || (l =? "AAA"), POLICE);
    (fun l => l =? "JAA", GENDARMERIE);
    (fun l => l =? "SGH", COAST_GUARD);
    (fun l => l =? "CD", DIPLOMATIC);
    (fun l => l =? "CC", CONSULATE);
    (fun l => (String.length l =? 2)%nat && within "MA" "MZ" l, FOREIGN);
    (fun l => (String.length l =? 3)%nat && within "TAA" "TKZ" l, TAXI) ].

Fixpoint firstMatch (rs : list ((string -> bool) * PlateType))
    (l : string) : PlateType :=
  match rs with
  | [] => STANDARD
  | (applies, ty) :: rest => if applies l then ty else firstMatch rest l
  end.

Definition classify (l : string) : PlateType := firstMatch rules l.

(** The 1-based position of a letter in the alphabet, A = 1 ... Z = 26. *)
Definition alphabetPosition (c : ascii) : Z := (Z.of_N (code c) - 64)%Z.

(** The product of the positions of the letters of a block. *)
Definition positionProduct (l : string) : Z :=
  fold_right (fun c acc => (alphabetPosition c * acc)%Z) 1%Z
    (list_ascii_of_string l).

(** What a character adds to the digit sum: its value when it is a
    decimal digit, 1 when it cannot be parsed. *)
Definition digitContribution (c : ascii) : Z :=
  if isDigit c then (Z.of_N (code c) - 48)%Z else 1%Z.

Definition digitSum (d : string) : Z :=
  fold_right (fun c acc => (digitContribution c + acc)%Z) 0%Z
    (list_ascii_of_string d).

(** The rarity multipliers of the province table. *)
Definition tierValues : list Q := [1.5%Q; 2.5%Q; 5%Q; 10%Q].

(** A number is an integer, or an integer and a half. *)
Definition HalfInteger (v : Q) : Prop :=
  exists z : Z, (v * 2 == inject_Z z)%Q.

(** A character of a canonical plate. *)
Definition plain (c : ascii) : bool := isDigit c || isUpper c.

(** A number is positive. *)
Definition positive (v : Q) : bool := negb (Qle_bool v 0).

(** The number of characters ["0"] in a string. *)
Definition zeros (d : string) : nat :=
  count_occ ascii_dec (list_ascii_of_string d) "0"%char.

End Spec.

(** ** The presentation helpers and the command handlers

    [getPlateTypeDisplay] of scoring.js and the computations of index.js
    that involve neither the database nor the chat platform: the
    normalization and validation of the text of a command, the document
    built for a new plate, the score bands, the counts per province. *)

Module Bot.
Import JS Scoring.

(** The string a plate type is in the source. *)
Definition plateTypeName (ty : PlateType) : string :=
  match ty with
  | STANDARD => "STANDARD"
  | UNIVERSITY => "UNIVERSITY"
  | POLICE => "POLICE"
  | GENDARMERIE => "GENDARMERIE"
  | COAST_GUARD => "COAST_GUARD"
  | DIPLOMATIC => "DIPLOMATIC"
  | CONSULATE => "CONSULATE"
  | FOREIGN => "FOREIGN"
  | TAXI => "TAXI"
  end.

Definition displayNames : list (string * string) :=
  [ ("STANDARD", "Standard Civilian");
    ("UNIVERSITY", "University/Rectorate");
    ("POLICE", "Police");
    ("GENDARMERIE", "Gendarmerie");
    ("COAST_GUARD", "Coast Guard");
    ("DIPLOMATIC", "Diplomatic Corps");
    ("CONSULATE", "Consulate");
    ("FOREIGN", "Foreign Resident");
    ("TAXI", "Taxi") ].

(** [v || d] for a string-valued [v]: [undefined] and the empty string
    are falsy. *)
Definition orS (v : option string) (d : string) : string :=
  match v with
  | Some (String c s) => String c s
  | _ => d
  end.

Definition getPlateTypeDisplay (plateType : string) : string :=
  orS (lookup String.eqb plateType displayNames) plateType.

(** A regular expression of the form [^c1{m1,n1} ... ck{mk,nk}$], each
    [ci] a character class: the only form index.js uses. *)
Record Atom : Type := {
  class : ascii -> bool;
  atLeast : nat;
  atMost : nat
}.

(** A greedy [p{min,max}] followed by the rest of the expression, [k]:
    as many characters as possible are taken first, fewer when the rest
    does not match. *)
Fixpoint repeatThen (p : ascii -> bool) (k : string -> bool)
    (min max : nat) (s : string) : bool :=
  let stop := (min =? 0)%nat && k s in
  match max with
  | O => stop
  | S max' =>
      match s with
      | String c s' =>
          if p c then repeatThen p k (Nat.pred min) max' s' || stop
          else stop
      | EmptyString => stop
      end
  end.

(** [$] *)
Definition atEnd (s : string) : bool :=
  match s with
  | EmptyString => true
  | String _ _ => false
  end.

(** [s.match(r)] as a condition, for an expression anchored at both
    ends. *)
Definition matches (r : list Atom) (s : string) : bool :=
  fold_right (fun a k => repeatThen (class a) k (atLeast a) (atMost a))
    atEnd r s.

(** [/^\d{1,2}[A-Z]{1,3}\d{1,4}$/] *)
Definition plateFormat : list Atom :=
  [ {| class := isDigit; atLeast := 1; atMost := 2 |};
    {| class := isUpper; atLeast := 1; atMost := 3 |};
    {| class := isDigit; atLeast := 1; atMost := 4 |} ].

(** The text of the [plate] option as the handlers of [addplate] and
    [plateinfo] take it: upper-cased, then stripped of separators. *)
Definition normalizeInput (input : string) : string :=
  stripSeparators (toUpperCase input).

(** The documents of the plate collection, without the date. *)
Record Plate : Set := {
  userId : string;
  username : string;
  plateText : string;
  provinceCode : string;
  letters : string;
  digits : string;
  plateType : string;
  provinceScore : Q;
  letterScore : Q;
  digitScore : Q;
  specialScore : Q;
  totalScore : Q
}.

(** [new Plate({...})] in [addplate]: the document built from the
    normalized text and the result of the engine. *)
Definition newPlate (userId username plateText : string)
    (result : ScoreResult) : Plate :=
  {| userId := userId;
     username := username;
     plateText := plateText;
     provinceCode := Scoring.provinceCode (parsed result);
     letters := Scoring.letters (parsed result);
     digits := Scoring.digits (parsed result);
     plateType := plateTypeName (Scoring.plateType result);
     provinceScore := Breakdown.province (breakdown result);
     letterScore := Breakdown.letters (breakdown result);
     digitScore := Breakdown.digits (breakdown result);
     specialScore := Breakdown.special (breakdown result);
     totalScore := Scoring.totalScore result |}.

(** How an awaited call to the database ends: it throws, or it returns a
    value. *)
Inductive Awaited (A : Type) : Type :=
  | Threw
  | Returned (value : A).

Arguments Threw {A}.
Arguments Returned {A} value.

(** The replies of [addplate]: the format is invalid, the user has the
    plate already, the plate was added (with the document saved), there
    was an error adding it. *)
Inductive AddPlateReply : Set :=
  | InvalidFormat
  | AlreadyCollected
  | Added (newPlate : Plate)
  | ErrorAdding.

(** The handler of [addplate].  The database is not modelled: the
    outcome of [Plate.findOne] for the user and the text, and that of
    [newPlate.save()], are taken as arguments. *)
Definition addplate (userId username input : string)
    (findOne : Awaited (option Plate)) (save : Awaited unit)
    : AddPlateReply :=
  let plateText := normalizeInput input in
  if negb (matches plateFormat plateText) then InvalidFormat
  else
    let result := calculatePlateScore plateText in
    match findOne with
    | Threw => ErrorAdding
    | Returned (Some existingPlate) => AlreadyCollected
    | Returned None =>
        let newPlate := newPlate userId username plateText result in
        match save with
        | Threw => ErrorAdding
        | Returned _ => Added newPlate
        end
    end.

(** The symbols of [getScoreEmoji]: gem stone (U+1F48E), crown (U+1F451),
    glowing star (U+1F31F), star (U+2B50), sparkles (U+2728) and small
    blue diamond (U+1F539). *)
Inductive ScoreEmoji : Set :=
  | GemStone | Crown | GlowingStar | Star | Sparkles | SmallBlueDiamond.

(** [score >= bound] *)
Definition geq (score bound : Q) : bool := Qle_bool bound score.

Definition getScoreEmoji (score : Q) : ScoreEmoji :=
  if geq score 1000 then GemStone
  else if geq score 500 then Crown
  else if geq score 250 then GlowingStar
  else if geq score 100 then Star
  else if geq score 50 then Sparkles
  else SmallBlueDiamond.

Definition getScoreColor (score : Q) : string :=
  if geq score 1000 then "#9C27B0"
  else if geq score 500 then "#673AB7"
  else if geq score 250 then "#3F51B5"
  else if geq score 100 then "#2196F3"
  else if geq score 50 then "#4CAF50"
  else "#FF9800".

(** [obj[k] = v] on a table: the property is replaced where it is, or
    added.  The order in which JavaScript enumerates the properties is
    not modelled, only reads and the number of keys are used; the keys
    are province codes of the parser, which no property inherited from
    [Object.prototype] is named after. *)
Fixpoint assign {V : Type} (k : string) (v : V) (table : list (string * V))
    : list (string * V) :=
  match table with
  | [] => [(k, v)]
  | (k', v') :: rest =>
      if String.eqb k k' then (k', v) :: rest
      else (k', v') :: assign k v rest
  end.

(** The loop of [mycollection] and [provinces] that counts the plates of
    each province. *)
Definition provinceCount (plates : list Plate) : list (string * Z) :=
  fold_left
    (fun provinceCount plate =>
       assign (provinceCode plate)
         (orZ (lookup String.eqb (provinceCode plate) provinceCount) 0 + 1)%Z
         provinceCount)
    plates [].

(** [Object.keys(provinceCount).length] *)
Definition collectedProvinces (provinceCount : list (string * Z)) : nat :=
  List.length provinceCount.

Definition totalProvinces : nat := 81.

(** [i.toString()] for a natural number. *)
Definition toString (i : nat) : string :=
  DecimalString.NilEmpty.string_of_uint (Nat.to_uint i).



End Bot.

(** ** Notions used to state the properties of the helpers *)

Module Props.
Import JS Scoring.

(** The number a string of decimal digits denotes. *)
Definition decimalValue (d : string) : Z :=
  fold_left (fun n c => (n * 10 + (Z.of_N (code c) - 48))%Z)
    (list_ascii_of_string d) 0%Z.

(** [pattern] occurs in [s]. *)
Definition Occurs (pattern s : string) : Prop :=
  exists before after : string, s = before ++ pattern ++ after.

(** The bands of the score, from the lowest. *)
Definition band (e : Bot.ScoreEmoji) : nat :=
  match e with
  | Bot.SmallBlueDiamond => 0
  | Bot.Sparkles => 1
  | Bot.Star => 2
  | Bot.GlowingStar => 3
  | Bot.Crown => 4
  | Bot.GemStone => 5
  end.

(** The keys of a table. *)
Definition keys {V : Type} (table : list (string * V)) : list string :=
  map fst table.

(** The codes the loop of [provinces] goes through, 01 to 81. *)
Definition provinceCodes : list string :=
  map (fun i => padStart 2 "0" (Bot.toString i)) (seq 1 Bot.totalProvinces).

(** A table of counts holds, for every code, the number of times the
    code occurs in a list, and no entry for a code that does not. *)
Definition Counts (table : list (string * Z)) (codes : list string) : Prop :=
  forall code : string,
    lookup String.eqb code table =
    if (count_occ string_dec codes code =? 0)%nat then None
    else Some (Z.of_nat (count_occ string_dec codes code)).

(** A province code as the parser produces it: empty, or two digits. *)
Definition parsedCode (code : string) : Prop :=
  code = "" \/ String.length code = 2 /\ Spec.allOf isDigit code = true.

(** A collection whose documents hold province codes of the parser, as
    the documents built by [addplate] do. *)
Definition Collection (plates : list Bot.Plate) : Prop :=
  forall plate : Bot.Plate,
    In plate plates -> parsedCode (Bot.provinceCode plate).

(** The document [addplate] saves for a text that is already normalized
    and valid. *)
Definition stored (userId username plateText : string) : Bot.Plate :=
  Bot.newPlate userId username plateText (calculatePlateScore plateText).

(** The number of plates of a province in a collection. *)
Definition platesOf (code : string) (plates : list Bot.Plate) : nat :=
  count_occ string_dec (map Bot.provinceCode plates) code.

End Props.

Import JS Scoring.

(** ** Prefix runs and substrings *)

Section Runs.

Variable p : ascii -> bool.

Lemma groupOrEmpty_captured (s : string) : groupOrEmpty (captured s) = s.
Proof. destruct s; reflexivity. Qed.

Lemma allOf_leadingRun (s : string) : Spec.allOf p (leadingRun p s) = true.
Proof.
  unfold Spec.allOf.
  induction s as [|c s IH]; simpl; [reflexivity|].
  destruct (p c) eqn:Hc; simpl; [rewrite Hc; exact IH | reflexivity].
Qed.

Lemma allOf_cons (c : ascii) (s : string) :
  Spec.allOf p (String c s) = p c && Spec.allOf p s.
Proof. reflexivity. Qed.

Lemma leadingRun_app (l r : string) :
  Spec.allOf p l = true -> leadingRun p (l ++ r) = l ++ leadingRun p r.
Proof.
  induction l as [|c l IH]; simpl; intros H; [reflexivity|].
  rewrite allOf_cons in H. apply andb_prop in H as [Hc Hl].
  rewrite Hc, IH by exact Hl. reflexivity.
Qed.

Lemma leadingRun_all (s : string) :
  Spec.allOf p s = true -> leadingRun p s = s.
Proof.
  induction s as [|c s IH]; simpl; intros H; [reflexivity|].
  rewrite allOf_cons in H. apply andb_prop in H as [Hc Hs].
  rewrite Hc, IH by exact Hs. reflexivity.
Qed.

Lemma leadingRun_stops (c : ascii) (s : string) :
  p c = false -> leadingRun p (String c s) = "".
Proof. intros H; simpl; rewrite H; reflexivity. Qed.

End Runs.

Lemma substring_app (l r : string) : substring (String.length l) (l ++ r) = r.
Proof. induction l as [|c l IH]; simpl; [destruct r; reflexivity | exact IH]. Qed.

Lemma append_empty_r (s : string) : s ++ "" = s.
Proof. induction s as [|c s IH]; simpl; [|rewrite IH]; reflexivity. Qed.

(** A digit is not a letter. *)
Lemma isDigit_not_isUpper (c : ascii) : isDigit c = true -> isUpper c = false.
Proof.
  unfold isDigit, isUpper, between. intros H.
  apply andb_prop in H as [_ H]. apply N.leb_le in H.
  apply andb_false_intro1. apply N.leb_gt. lia.
Qed.

(** The letter block of a parsed plate holds letters [A]-[Z] only, its
    digit block digits only. *)
Lemma parsed_letters_upper (plateText : string) :
  Spec.allOf isUpper (letters (parseTurkishPlate plateText)) = true.
Proof.
  unfold parseTurkishPlate; simpl.
  rewrite groupOrEmpty_captured. apply allOf_leadingRun.
Qed.

Lemma parsed_digits_numeric (plateText : string) :
  Spec.allOf isDigit (digits (parseTurkishPlate plateText)) = true.
Proof.
  unfold parseTurkishPlate; simpl.
  rewrite !groupOrEmpty_captured. apply allOf_leadingRun.
Qed.

(** The province code of a parsed plate is empty or made of two digits. *)
Lemma parsed_provinceCode_shape (plateText : string) :
  let code := provinceCode (parseTurkishPlate plateText) in
  code = "" \/
  exists a b : ascii,
    code = String a (String b "") /\ isDigit a = true /\ isDigit b = true.
Proof.
  unfold parseTurkishPlate; simpl.
  destruct (toUpperCase (stripSeparators plateText)) as [|a [|b s]]; simpl.
  - left; reflexivity.
  - destruct (isDigit a) eqn:Ha; simpl; [right | left; reflexivity].
    exists "0"%char, a. repeat split; assumption.
  - destruct (isDigit a) eqn:Ha; simpl; [right | left; reflexivity].
    destruct (isDigit b) eqn:Hb; simpl.
    + exists a, b. repeat split; assumption.
    + exists "0"%char, a. repeat split; assumption.
Qed.

(** ** The parser on well-shaped text *)

Lemma allOf_digits_not_upper (d : string) :
  Spec.allOf isDigit d = true -> leadingRun isUpper d = "".
Proof.
  destruct d as [|x d]; [reflexivity|].
  rewrite allOf_cons. intros H. apply andb_prop in H as [Hx _].
  apply leadingRun_stops, isDigit_not_isUpper, Hx.
Qed.

(** Two digits, letters, digits: the three blocks come back as they are. *)
Lemma parse_two_digit_province (plateText : string) (a b : ascii)
    (l d : string) :
  Spec.normalize plateText = String a (String b (l ++ d)) ->
  isDigit a = true -> isDigit b = true ->
  Spec.allOf isUpper l = true -> Spec.allOf isDigit d = true ->
  parseTurkishPlate plateText =
    {| provinceCode := String a (String b ""); letters := l; digits := d |}.
Proof.
  intros Hn Ha Hb Hl Hd.
  unfold parseTurkishPlate. fold (Spec.normalize plateText). rewrite Hn.
  cbn [leadingRunUpTo]. rewrite Ha, Hb.
  cbn [captured padStart String.length Nat.sub replicate append substring].
  rewrite (leadingRun_app isUpper l d Hl), (allOf_digits_not_upper d Hd).
  rewrite append_empty_r, groupOrEmpty_captured, substring_app.
  rewrite (leadingRun_all isDigit d Hd), groupOrEmpty_captured.
  reflexivity.
Qed.

(** One digit, letters, digits: the code is padded to two characters and
    two characters are then skipped, the digit and the first letter. *)
Lemma parse_one_digit_province (plateText : string) (a x : ascii)
    (l d : string) :
  Spec.normalize plateText = String a (String x l ++ d) ->
  isDigit a = true ->
  Spec.allOf isUpper (String x l) = true -> Spec.allOf isDigit d = true ->
  parseTurkishPlate plateText =
    {| provinceCode := String "0" (String a ""); letters := l; digits := d |}.
Proof.
  intros Hn Ha Hl Hd.
  rewrite allOf_cons in Hl. apply andb_prop in Hl as [Hx Hl].
  assert (Hx' : isDigit x = false).
  { destruct (isDigit x) eqn:E; [|reflexivity].
    apply isDigit_not_isUpper in E. congruence. }
  unfold parseTurkishPlate. fold (Spec.normalize plateText). rewrite Hn.
  cbn [leadingRunUpTo append]. rewrite Ha, Hx'.
  cbn [captured padStart String.length Nat.sub replicate append substring].
  rewrite (leadingRun_app isUpper l d Hl), (allOf_digits_not_upper d Hd).
  rewrite append_empty_r, groupOrEmpty_captured, substring_app.
  rewrite (leadingRun_all isDigit d Hd), groupOrEmpty_captured.
  reflexivity.
Qed.

(** C2, at the input ["6AB12"]: the province code is padded to ["06"], and
    the text is then cut after as many characters as the padded code has,
    so that the letter block is ["B"] and not ["AB"]. *)
Theorem C2_one_digit_province_drops_a_letter :
  parseTurkishPlate "6AB12" =
    {| provinceCode := "06"; letters := "B"; digits := "12" |}.
Proof. reflexivity. Qed.

(** C3 as stated fails: ["6AB12"] is normalized and of the canonical
    shape, and its three parsed components concatenate to ["06B12"]. *)
Lemma C3_roundtrip_fails_for_one_digit_province :
  Spec.Canonical (Spec.normalize "6AB12") /\
  Spec.reassemble (parseTurkishPlate "6AB12") = "06B12" /\
  Spec.reassemble (parseTurkishPlate "6AB12") <> Spec.normalize "6AB12".
Proof.
  split; [|split; [reflexivity | discriminate]].
  exists "6", "AB", "12". cbn. repeat split; lia.
Qed.

(** C3, amended: when the normalized text is two digits, one to three
    letters and one to four digits, the province code, the letters and
    the digits of the parsed plate concatenate to the normalized text. *)
Theorem C3_roundtrip_two_digit_province (plateText : string) :
  Spec.Shaped 2 2 (Spec.normalize plateText) ->
  Spec.reassemble (parseTurkishPlate plateText) = Spec.normalize plateText.
Proof.
  intros (p & l & d & Hn & Hp & Hplen & Hl & _ & Hd & _).
  destruct p as [|a [|b [|c p]]]; cbn in Hplen; try lia.
  rewrite !allOf_cons in Hp.
  apply andb_prop in Hp as [Ha Hp]. apply andb_prop in Hp as [Hb _].
  cbn [append] in Hn.
  rewrite (parse_two_digit_province plateText a b l d Hn Ha Hb Hl Hd).
  rewrite Hn. reflexivity.
Qed.

Lemma C3_roundtrip_two_digit_province_witness :
  Spec.reassemble (parseTurkishPlate "34 ab-123") = "34AB123".
Proof.
  apply (C3_roundtrip_two_digit_province "34 ab-123").
  exists "34", "AB", "123". cbn. repeat split; lia.
Defined.

(** ** The classifier *)

(** The comparison of JavaScript is the standard order on strings. *)
Lemma ltb_compare (a b : string) :
  JS.ltb a b = match String.compare a b with Lt => true | _ => false end.
Proof.
  revert b. induction a as [|x a IH]; intros [|y b]; simpl; try reflexivity.
  unfold Ascii.compare, code, N.ltb.
  rewrite (N.compare_antisym (N_of_ascii x) (N_of_ascii y)).
  destruct (N_of_ascii x ?= N_of_ascii y)%N; simpl; auto.
Qed.

Lemma geb_leb (s lo : string) : JS.geb s lo = String.leb lo s.
Proof.
  unfold JS.geb, String.leb. rewrite ltb_compare, (String.compare_antisym s lo).
  destruct (String.compare lo s); reflexivity.
Qed.

Lemma leb_leb (s hi : string) : JS.leb s hi = String.leb s hi.
Proof.
  unfold JS.leb, String.leb. rewrite ltb_compare.
  rewrite (String.compare_antisym s hi).
  destruct (String.compare hi s); reflexivity.
Qed.

(** C4: [detectPlateType] is the first-match reading of the nine rules,
    with plain code-point order for the two ranges, and gives the ten
    classifications listed with them. *)
Theorem C4_detectPlateType_rules :
  (forall l : string, detectPlateType l = Spec.classify l) /\
  detectPlateType "AA" = UNIVERSITY /\
  detectPlateType "A" = POLICE /\
  detectPlateType "AAA" = POLICE /\
  detectPlateType "JAA" = GENDARMERIE /\
  detectPlateType "SGH" = COAST_GUARD /\
  detectPlateType "CD" = DIPLOMATIC /\
  detectPlateType "CC" = CONSULATE /\
  detectPlateType "MB" = FOREIGN /\
  detectPlateType "TAB" = TAXI /\
  detectPlateType "XY" = STANDARD.
Proof.
  split; [|repeat split; reflexivity].
  intros l. unfold detectPlateType, Spec.classify, Spec.rules, Spec.within.
  cbn [Spec.firstMatch].
  rewrite !geb_leb, !leb_leb, <- !andb_assoc.
  reflexivity.
Qed.

(** ** The digit sum *)

(** What one character adds to [digitSum]: its contribution by the
    specification, and one more when it is the digit 0, which
    [parseInt(...) || 1] turns into 1. *)
Lemma digit_or_one (c : ascii) :
  orZ (parseInt (String c "")) 1 =
  (Spec.digitContribution c + if ascii_dec c "0" then 1 else 0)%Z.
Proof.
  destruct c as [b0 b1 b2 b3 b4 b5 b6 b7].
  destruct b0, b1, b2, b3, b4, b5, b6, b7; vm_compute; reflexivity.
Qed.

Lemma digitSum_from (l : list ascii) (acc : Z) :
  fold_left (fun digitSum c => (digitSum + orZ (parseInt (String c "")) 1)%Z)
    l acc =
  (acc + fold_right (fun c r => (Spec.digitContribution c + r)%Z) 0%Z l
       + Z.of_nat (count_occ ascii_dec l "0"%char))%Z.
Proof.
  revert acc. induction l as [|c l IH]; intros acc; simpl; [lia|].
  rewrite IH, digit_or_one.
  destruct (ascii_dec c "0"); lia.
Qed.

Lemma digitSum_zeros (d : string) :
  Scoring.digitSum d = (Spec.digitSum d + Z.of_nat (Spec.zeros d))%Z.
Proof.
  unfold Scoring.digitSum, Spec.digitSum, Spec.zeros.
  rewrite digitSum_from. lia.
Qed.

(** C1, where the code departs from it: every digit 0 of the digit block
    adds 1 to [digitsum], so that the digit sum of a plate is the sum of
    its digits plus the number of its zeros; for ["06AA01"] it is 2, not
    1, and the total is 900, not 675. *)
Theorem C1_digitsum_counts_zero_as_one :
  (forall plateText : string,
     let d := digits (parseTurkishPlate plateText) in
     Breakdown.digitsum (breakdown (calculatePlateScore plateText)) =
     inject_Z (Spec.digitSum d + Z.of_nat (Spec.zeros d))) /\
  Spec.digitSum "01" = 1%Z /\
  (Breakdown.digitsum (breakdown (calculatePlateScore "06AA01")) == 2)%Q /\
  (totalScore (calculatePlateScore "06AA01") == 900)%Q.
Proof.
  split; [|repeat split; reflexivity].
  intros plateText d. unfold calculatePlateScore; cbn [breakdown Breakdown.digitsum].
  fold d. rewrite digitSum_zeros. reflexivity.
Qed.

(** ** The letter score *)

Lemma isUpper_position (c : ascii) :
  isUpper c = true ->
  ((1 <=? Z.of_N (code c) - 64) && (Z.of_N (code c) - 64 <=? 26))%Z = true.
Proof.
  unfold isUpper, between. intros H.
  apply andb_prop in H as [Hlo Hhi].
  apply N.leb_le in Hlo. apply N.leb_le in Hhi.
  apply andb_true_intro; split; apply Z.leb_le; lia.
Qed.

Lemma letterSum_from (l : list ascii) (acc : Z) :
  forallb isUpper l = true ->
  fold_left
    (fun letterSum c =>
       let letterPosition := (Z.of_N (code c) - 64)%Z in
       if ((1 <=? letterPosition) && (letterPosition <=? 26))%Z
       then (letterSum * letterPosition)%Z
       else letterSum) l acc =
  (acc * fold_right (fun c r => (Spec.alphabetPosition c * r)%Z) 1%Z l)%Z.
Proof.
  revert acc. induction l as [|c l IH]; intros acc H; simpl; [lia|].
  simpl in H. apply andb_prop in H as [Hc Hl].
  rewrite (isUpper_position c Hc), (IH _ Hl).
  unfold Spec.alphabetPosition. ring.
Qed.

(** On a block of letters the loop computes the product of their
    alphabet positions. *)
Lemma letterSum_positionProduct (l : string) :
  Spec.allOf isUpper l = true -> letterSum l = Spec.positionProduct l.
Proof.
  intros H. unfold letterSum, Spec.positionProduct.
  etransitivity; [apply letterSum_from; exact H | apply Z.mul_1_l].
Qed.

Lemma length_replicate (n : nat) (c : ascii) :
  String.length (replicate n c) = n.
Proof. induction n as [|n IH]; simpl; [|rewrite IH]; reflexivity. Qed.

(** A block of one or more equal letters has one distinct letter. *)
Lemma distinct_replicate (n : nat) (c : ascii) :
  distinct (replicate (S n) c) = 1.
Proof.
  unfold distinct. induction n as [|n IH]; [reflexivity|].
  change (list_ascii_of_string (replicate (S (S n)) c))
    with (c :: list_ascii_of_string (replicate (S n) c)).
  cbn [nodup].
  destruct (in_dec ascii_dec c (list_ascii_of_string (replicate (S n) c)))
    as [_|Hn]; [exact IH|].
  exfalso; apply Hn; left; reflexivity.
Qed.

(** C6: for a standard plate with three or more equal letters, the first
    adjustment sets the letter score to 20 and the second one replaces it
    by 7.5, the letter score before the letter product is added. *)
Theorem C6_triple_letter_base_score (plateText : string) (c : ascii)
    (n : nat) :
  plateType (calculatePlateScore plateText) = STANDARD ->
  letters (parsed (calculatePlateScore plateText)) = replicate n c ->
  3 <= n ->
  repeatOrSequence (letters (parsed (calculatePlateScore plateText))) 1%Q
    = 20%Q /\
  letterPatternScore (plateType (calculatePlateScore plateText))
    (letters (parsed (calculatePlateScore plateText))) = 7.5%Q.
Proof.
  intros Hty Hl Hn.
  assert (Hlen : (3 <=? String.length (replicate n c))%nat = true)
    by (rewrite length_replicate; apply Nat.leb_le; exact Hn).
  assert (Hlen2 : (2 <=? String.length (replicate n c))%nat = true)
    by (rewrite length_replicate; apply Nat.leb_le; lia).
  assert (Hd : (distinct (replicate n c) =? 1)%nat = true).
  { destruct n as [|n]; [lia|]. rewrite distinct_replicate. reflexivity. }
  assert (Hne : nonEmpty (replicate n c) = true)
    by (destruct n; [lia | reflexivity]).
  assert (Hfirst : repeatOrSequence (replicate n c) 1%Q = 20%Q)
    by (unfold repeatOrSequence; rewrite Hd, Hlen; reflexivity).
  assert (Hbase : letterPatternScore STANDARD (replicate n c) = 7.5%Q).
  { unfold letterPatternScore. cbn [PlateType_eqb andb].
    rewrite Hne, Hlen2. unfold allSameBoost. rewrite Hlen, Hd. reflexivity. }
  cbn [calculatePlateScore plateType parsed] in Hty, Hl |- *.
  rewrite Hty, Hl, Hbase. auto.
Qed.

Lemma C6_triple_letter_base_score_witness :
  letterPatternScore (plateType (calculatePlateScore "34BBB12"))
    (letters (parsed (calculatePlateScore "34BBB12"))) = 7.5%Q.
Proof.
  apply (C6_triple_letter_base_score "34BBB12" "B"%char 3);
    [reflexivity | reflexivity | lia].
Defined.

Lemma positionProduct_bound (l : string) :
  Spec.allOf isUpper l = true ->
  (1 <= Spec.positionProduct l <= 26 ^ Z.of_nat (String.length l))%Z.
Proof.
  unfold Spec.positionProduct.
  induction l as [|c l IH]; [intros _; cbn; lia|].
  rewrite allOf_cons. intros H. apply andb_prop in H as [Hc Hl].
  specialize (IH Hl).
  apply isUpper_position, andb_prop in Hc as [Hlo Hhi].
  apply Z.leb_le in Hlo. apply Z.leb_le in Hhi.
  cbn [String.length list_ascii_of_string fold_right].
  rewrite Nat2Z.inj_succ, Z.pow_succ_r by lia.
  destruct IH as [Hp1 Hp2]. revert Hp1 Hp2.
  generalize (26 ^ Z.of_nat (String.length l))%Z as bound.
  generalize (fold_right (fun c acc => (Spec.alphabetPosition c * acc)%Z)
                1%Z (list_ascii_of_string l)) as prod.
  intros prod bound Hp1 Hp2. unfold Spec.alphabetPosition.
  revert Hlo Hhi. generalize (Z.of_N (code c) - 64)%Z as pos.
  intros pos Hlo Hhi. split; nia.
Qed.

(** C7: the product of the alphabet positions of the letters, starting
    from 1, is added to the letter score of every plate.  For a block of
    up to eleven letters, where the product is at most 26^11 and the
    arithmetic of the code exact, the letter score is the pattern score
    plus that product; when the plate is not a standard one, or has no
    letters, it is 1 plus the product. *)
Theorem C7_letter_product_always_added (plateText : string) :
  (String.length (letters (parsed (calculatePlateScore plateText))) <= 11 ->
   Breakdown.letters (breakdown (calculatePlateScore plateText)) =
     (letterPatternScore (plateType (calculatePlateScore plateText))
        (letters (parsed (calculatePlateScore plateText)))
      + inject_Z
          (Spec.positionProduct
             (letters (parsed (calculatePlateScore plateText)))))%Q /\
   (1 <= Spec.positionProduct
           (letters (parsed (calculatePlateScore plateText)))
      <= 26 ^ 11)%Z) /\
  (plateType (calculatePlateScore plateText) <> STANDARD \/
   letters (parsed (calculatePlateScore plateText)) = "" ->
   Breakdown.letters (breakdown (calculatePlateScore plateText)) =
     (1 + inject_Z
            (Spec.positionProduct
               (letters (parsed (calculatePlateScore plateText)))))%Q).
Proof.
  cbn [calculatePlateScore plateType parsed breakdown Breakdown.letters].
  rewrite (letterSum_positionProduct _ (parsed_letters_upper plateText)).
  split.
  - intros Hlen. split; [reflexivity|].
    pose proof (positionProduct_bound _ (parsed_letters_upper plateText))
      as [Hlo Hhi].
    split; [exact Hlo|].
    apply (Z.le_trans _ _ _ Hhi). apply Z.pow_le_mono_r; lia.
  - intros H.
    assert (Hbase : letterPatternScore
              (detectPlateType (letters (parseTurkishPlate plateText)))
              (letters (parseTurkishPlate plateText)) = 1%Q).
    { unfold letterPatternScore. destruct H as [H|H].
      - destruct (detectPlateType (letters (parseTurkishPlate plateText)));
          try reflexivity. contradiction.
      - rewrite H, andb_false_r. reflexivity. }
    rewrite Hbase. reflexivity.
Qed.

Lemma C7_letter_product_always_added_witness :
  Breakdown.letters (breakdown (calculatePlateScore "34CD1")) = 13%Q /\
  Breakdown.letters (breakdown (calculatePlateScore "34XYZ1")) = 15601%Q.
Proof.
  split.
  - etransitivity;
      [apply (proj2 (C7_letter_product_always_added "34CD1"));
       left; discriminate | reflexivity].
  - etransitivity;
      [apply (proj1 (C7_letter_product_always_added "34XYZ1"));
       cbn; lia | reflexivity].
Defined.

(** ** The province score *)

Lemma lookup_In {V : Type} (k : string) (table : list (string * V)) (v : V) :
  lookup String.eqb k table = Some v -> In (k, v) table.
Proof.
  induction table as [|[k' v'] rest IH]; simpl; [discriminate|].
  destruct (String.eqb k k') eqn:E.
  - apply String.eqb_eq in E. intros [= ->]. left; congruence.
  - intros H; right; exact (IH H).
Qed.

Lemma provinceTiers_entries (k : string) (v : Q) :
  In (k, v) provinceTiers -> k = "default" \/ In v Spec.tierValues.
Proof.
  unfold provinceTiers, Spec.tierValues. intros H.
  repeat (destruct H as [H|H];
          [injection H as <- <-;
           first [left; reflexivity | right; simpl; tauto] | ]).
  destruct H.
Qed.

Lemma tierValues_truthy (v : Q) (d : Q) :
  In v Spec.tierValues -> orQ (Some v) d = v.
Proof.
  unfold Spec.tierValues. simpl.
  intros [<-|[<-|[<-|[<-|[]]]]]; reflexivity.
Qed.

(** C8: the province score of a plate is the value the table holds for
    its province code, one of 1.5, 2.5, 5 and 10, and 1 when the table
    has no such code, as for ["99AB1"]. *)
Theorem C8_province_score :
  (forall plateText : string,
     match lookup String.eqb (provinceCode (parseTurkishPlate plateText))
             provinceTiers with
     | Some v =>
         Breakdown.province (breakdown (calculatePlateScore plateText)) = v
         /\ In v Spec.tierValues
     | None =>
         Breakdown.province (breakdown (calculatePlateScore plateText))
         = 1%Q
     end) /\
  provinceCode (parseTurkishPlate "99AB1") = "99" /\
  lookup String.eqb "99" provinceTiers = None /\
  Breakdown.province (breakdown (calculatePlateScore "99AB1")) = 1%Q.
Proof.
  split; [|repeat split; reflexivity].
  intros plateText.
  cbn [calculatePlateScore breakdown Breakdown.province].
  destruct (lookup String.eqb (provinceCode (parseTurkishPlate plateText))
              provinceTiers) as [v|] eqn:E; [|reflexivity].
  apply lookup_In, provinceTiers_entries in E.
  destruct E as [E|E].
  - exfalso.
    destruct (parsed_provinceCode_shape plateText) as [H|(a & b & H & _)];
      cbv zeta in H; rewrite H in E; discriminate.
  - split; [apply tierValues_truthy|]; exact E.
Qed.

(** ** Positivity of the score *)

Lemma positive_lt (v : Q) : Spec.positive v = true -> (0 < v)%Q.
Proof.
  unfold Spec.positive. intros H. apply negb_true_iff in H.
  apply Qnot_le_lt. intros Hle. apply Qle_bool_iff in Hle. congruence.
Qed.

Lemma lookup_forallb {K V : Type} (eqb : K -> K -> bool) (f : V -> bool)
    (k : K) (table : list (K * V)) (v : V) :
  forallb (fun kv => f (snd kv)) table = true ->
  lookup eqb k table = Some v -> f v = true.
Proof.
  induction table as [|[k' v'] rest IH]; simpl; [discriminate|].
  intros H. apply andb_prop in H as [Hv Hrest].
  destruct (eqb k k'); [intros [= <-]; exact Hv | exact (IH Hrest)].
Qed.

Lemma orQ_pos (o : option Q) (d : Q) :
  (forall v, o = Some v -> 0 < v)%Q -> (0 < d)%Q -> (0 < orQ o d)%Q.
Proof.
  intros Ho Hd. destruct o as [v|]; simpl; [|exact Hd].
  destruct (Qeq_bool v 0); [exact Hd | apply Ho; reflexivity].
Qed.

Lemma letterPatternScore_pos (ty : PlateType) (l : string) :
  (0 < letterPatternScore ty l)%Q.
Proof.
  unfold letterPatternScore, allSameBoost, repeatOrSequence.
  repeat match goal with
         | |- context [if ?b then _ else _] => destruct b
         end; reflexivity.
Qed.

Lemma letterSum_from_pos (cs : list ascii) (acc : Z) :
  (0 < acc)%Z ->
  (0 < fold_left
         (fun letterSum c =>
            let letterPosition := (Z.of_N (code c) - 64)%Z in
            if ((1 <=? letterPosition) && (letterPosition <=? 26))%Z
            then (letterSum * letterPosition)%Z
            else letterSum) cs acc)%Z.
Proof.
  revert acc. induction cs as [|c cs IH]; intros acc Hacc; simpl;
    [exact Hacc|].
  apply IH.
  destruct ((1 <=? Z.of_N (code c) - 64) && (Z.of_N (code c) - 64 <=? 26))%Z
    eqn:E; [|exact Hacc].
  apply andb_prop in E as [E _]. apply Z.leb_le in E. nia.
Qed.

Lemma letterSum_pos (l : string) : (0 < letterSum l)%Z.
Proof. apply letterSum_from_pos. lia. Qed.

Lemma digitContribution_nonneg (c : ascii) :
  (0 <= Spec.digitContribution c)%Z.
Proof.
  unfold Spec.digitContribution, isDigit, between.
  destruct (48 <=? code c)%N eqn:E; simpl; [|lia].
  apply N.leb_le in E. destruct (code c <=? 57)%N; lia.
Qed.

Lemma digitSum_nonneg (d : string) : (0 <= Scoring.digitSum d)%Z.
Proof.
  rewrite digitSum_zeros. unfold Spec.digitSum.
  assert (0 <= fold_right (fun c acc => Spec.digitContribution c + acc) 0
                 (list_ascii_of_string d))%Z; [|lia].
  induction (list_ascii_of_string d) as [|c cs IH]; simpl; [lia|].
  pose proof (digitContribution_nonneg c). lia.
Qed.

Lemma digitScore_pos (n : Z) : (0 < digitScore n)%Q.
Proof.
  unfold digitScore.
  repeat match goal with
         | |- context [if ?b then _ else _] => destruct b
         end; reflexivity.
Qed.

(** The engine is a total function, and its score is positive whatever
    the text is. *)
Lemma totalScore_pos (plateText : string) :
  (0 < totalScore (calculatePlateScore plateText))%Q.
Proof.
  cbn [calculatePlateScore totalScore].
  repeat apply Qmult_lt_0_compat.
  - pose proof (letterPatternScore_pos
                  (detectPlateType (letters (parseTurkishPlate plateText)))
                  (letters (parseTurkishPlate plateText))) as Hp.
    pose proof (letterSum_pos (letters (parseTurkishPlate plateText))) as Hs.
    pose proof (digitSum_nonneg (digits (parseTurkishPlate plateText))) as Hd.
    rewrite Zlt_Qlt in Hs. rewrite Zle_Qle in Hd.
    change (inject_Z 0) with 0%Q in Hs, Hd. lra.
  - apply digitScore_pos.
  - apply orQ_pos; [|reflexivity].
    intros v Hv. apply positive_lt.
    revert Hv. apply lookup_forallb. reflexivity.
  - apply orQ_pos; [|reflexivity].
    intros v Hv. apply positive_lt.
    revert Hv. apply lookup_forallb. reflexivity.
Qed.

(** C5: on a text of the shape the caller's regular expression accepts,
    one or two digits, one to three letters, one to four digits, the
    engine returns a result, and its total score is above 0. *)
Theorem C5_valid_plate_scores_positive (plateText : string) :
  Spec.Canonical plateText ->
  exists r : ScoreResult,
    calculatePlateScore plateText = r /\ (0 < totalScore r)%Q.
Proof.
  intros _. exists (calculatePlateScore plateText).
  split; [reflexivity | apply totalScore_pos].
Qed.

Lemma C5_valid_plate_scores_positive_witness :
  exists r : ScoreResult,
    calculatePlateScore "34AB123" = r /\ (0 < totalScore r)%Q.
Proof.
  apply (C5_valid_plate_scores_positive "34AB123").
  exists "34", "AB", "123". cbn. repeat split; lia.
Defined.

(** ** The worked examples *)

(** C9: the two standard plates of the worked examples. *)
Theorem C9_standard_plate_scenarios :
  let r1 := calculatePlateScore "34AB123" in
  let r2 := calculatePlateScore "81BB1" in
  (plateType r1 = STANDARD /\
   (Breakdown.letters (breakdown r1) == 3)%Q /\
   (Breakdown.digits (breakdown r1) == 2.5)%Q /\
   (Breakdown.digitsum (breakdown r1) == 6)%Q /\
   (Breakdown.province (breakdown r1) == 1.5)%Q /\
   (Breakdown.special (breakdown r1) == 1)%Q /\
   (totalScore r1 == 33.75)%Q) /\
  (plateType r2 = STANDARD /\
   (Breakdown.letters (breakdown r2) == 14)%Q /\
   (Breakdown.digits (breakdown r2) == 10)%Q /\
   (Breakdown.digitsum (breakdown r2) == 1)%Q /\
   (Breakdown.province (breakdown r2) == 10)%Q /\
   (Breakdown.special (breakdown r2) == 1)%Q /\
   (totalScore r2 == 1500)%Q).
Proof. cbv zeta. repeat split; reflexivity. Qed.

(** ** Consistency of the result *)

(** C10: whatever the text, the total is the product of the formula over
    the reported factors, the reported components are those of the
    parser and the reported type is that of the parsed letters. *)
Theorem C10_result_consistent (plateText : string) :
  let r := calculatePlateScore plateText in
  let b := breakdown r in
  totalScore r =
    ((Breakdown.letters b + Breakdown.digitsum b) * Breakdown.digits b
     * Breakdown.province b * Breakdown.special b)%Q /\
  parsed r = parseTurkishPlate plateText /\
  plateType r = detectPlateType (letters (parsed r)).
Proof. repeat split. Qed.

(** ** Exactness of the arithmetic on canonical plates

    On a text of the canonical shape the total is a multiple of 1/8 that
    stays below 2^26, as do the values it is computed from: binary64
    arithmetic is exact there, and the rational model agrees with it. *)

Lemma plain_char (c : ascii) :
  Spec.plain c = true -> isSeparator c = false /\ upperChar c = String c "".
Proof.
  destruct c as [b0 b1 b2 b3 b4 b5 b6 b7].
  destruct b0, b1, b2, b3, b4, b5, b6, b7; vm_compute;
    first [discriminate | split; reflexivity].
Qed.

(** Normalization leaves a text of digits and capital letters as it is. *)
Lemma normalize_plain (s : string) :
  Spec.allOf Spec.plain s = true -> Spec.normalize s = s.
Proof.
  unfold Spec.normalize.
  induction s as [|c s IH]; [reflexivity|].
  rewrite allOf_cons. intros H. apply andb_prop in H as [Hc Hs].
  destruct (plain_char c Hc) as [Hsep Hup].
  cbn [stripSeparators toUpperCase]. rewrite Hsep.
  cbn [toUpperCase]. rewrite Hup, (IH Hs). reflexivity.
Qed.

Lemma allOf_app (p : ascii -> bool) (a b : string) :
  Spec.allOf p (a ++ b) = Spec.allOf p a && Spec.allOf p b.
Proof.
  induction a as [|c a IH]; [reflexivity|].
  cbn [append]. rewrite !allOf_cons, IH. apply andb_assoc.
Qed.

Lemma allOf_weaken (p q : ascii -> bool) (s : string) :
  (forall c, p c = true -> q c = true) ->
  Spec.allOf p s = true -> Spec.allOf q s = true.
Proof.
  intros Hpq. induction s as [|c s IH]; [reflexivity|].
  rewrite !allOf_cons. intros H. apply andb_prop in H as [Hc Hs].
  rewrite (Hpq c Hc), (IH Hs). reflexivity.
Qed.

Lemma canonical_normalized (s : string) :
  Spec.Canonical s -> Spec.normalize s = s.
Proof.
  intros (p & l & d & -> & Hp & _ & Hl & _ & Hd & _).
  apply normalize_plain. rewrite !allOf_app.
  rewrite (allOf_weaken isDigit Spec.plain p), (allOf_weaken isUpper Spec.plain l),
    (allOf_weaken isDigit Spec.plain d); try assumption; try reflexivity;
    unfold Spec.plain; intros c Hc; rewrite Hc; auto using orb_true_r.
Qed.

(** The blocks the parser finds in a canonical text: at most three
    letters, one to four digits. *)
Lemma canonical_parse (s : string) :
  Spec.Canonical s ->
  String.length (letters (parseTurkishPlate s)) <= 3 /\
  1 <= String.length (digits (parseTurkishPlate s)) <= 4.
Proof.
  intros Hs. pose proof (canonical_normalized s Hs) as Hn.
  destruct Hs as (p & l & d & E & Hp & Hplen & Hl & Hllen & Hd & Hdlen).
  destruct p as [|a [|b [|c p]]]; cbn in Hplen; try lia.
  - destruct l as [|x l]; cbn in Hllen; [lia|].
    rewrite allOf_cons in Hp. apply andb_prop in Hp as [Ha _].
    rewrite E in Hn at 2. cbn [append] in Hn.
    rewrite (parse_one_digit_province s a x l d Hn Ha Hl Hd).
    cbn [letters digits]. lia.
  - rewrite !allOf_cons in Hp.
    apply andb_prop in Hp as [Ha Hp]. apply andb_prop in Hp as [Hb _].
    rewrite E in Hn at 2. cbn [append] in Hn.
    rewrite (parse_two_digit_province s a b l d Hn Ha Hb Hl Hd).
    cbn [letters digits]. lia.
Qed.

Lemma digit_or_one_bound (c : ascii) :
  isDigit c = true -> (1 <= orZ (parseInt (String c "")) 1 <= 9)%Z.
Proof.
  destruct c as [b0 b1 b2 b3 b4 b5 b6 b7].
  destruct b0, b1, b2, b3, b4, b5, b6, b7; vm_compute;
    first [discriminate | intros _; split; discriminate].
Qed.

Lemma digitSum_from_bound (cs : list ascii) (acc : Z) :
  forallb isDigit cs = true ->
  (acc <=
   fold_left (fun digitSum c => digitSum + orZ (parseInt (String c "")) 1)
     cs acc <= acc + 9 * Z.of_nat (List.length cs))%Z.
Proof.
  revert acc. induction cs as [|c cs IH]; intros acc H; [cbn; lia|].
  cbn [forallb] in H. apply andb_prop in H as [Hc Hcs].
  cbn [fold_left List.length].
  pose proof (digit_or_one_bound c Hc).
  specialize (IH (acc + orZ (parseInt (String c "")) 1)%Z Hcs). lia.
Qed.

Lemma length_list_ascii (s : string) :
  List.length (list_ascii_of_string s) = String.length s.
Proof. induction s as [|c s IH]; cbn; [|rewrite IH]; reflexivity. Qed.

Lemma digitSum_bound (d : string) :
  Spec.allOf isDigit d = true ->
  (0 <= Scoring.digitSum d <= 9 * Z.of_nat (String.length d))%Z.
Proof.
  intros H. rewrite <- length_list_ascii.
  exact (digitSum_from_bound _ 0%Z H).
Qed.

(** The values of the four factors that are not sums. *)
Lemma letterPatternScore_cases (ty : PlateType) (l : string) :
  In (letterPatternScore ty l) [1%Q; 5%Q; 10%Q; 20%Q; 7.5%Q].
Proof.
  unfold letterPatternScore, allSameBoost, repeatOrSequence.
  repeat match goal with
         | |- context [if ?b then _ else _] => destruct b
         end; simpl; tauto.
Qed.

Lemma digitScore_cases (n : Z) :
  In (digitScore n) [10%Q; 5%Q; 2.5%Q; 1%Q].
Proof.
  unfold digitScore.
  repeat match goal with
         | |- context [if ?b then _ else _] => destruct b
         end; simpl; tauto.
Qed.

Lemma provinceScore_cases (plateText : string) :
  In (Breakdown.province (breakdown (calculatePlateScore plateText)))
     (1%Q :: Spec.tierValues).
Proof.
  cbn [calculatePlateScore breakdown Breakdown.province].
  destruct (lookup String.eqb (provinceCode (parseTurkishPlate plateText))
              provinceTiers) as [v|] eqn:E; [|left; reflexivity].
  apply lookup_In, provinceTiers_entries in E.
  destruct E as [E|E].
  - exfalso.
    destruct (parsed_provinceCode_shape plateText) as [H|(a & b & H & _)];
      cbv zeta in H; rewrite H in E; discriminate.
  - right. rewrite (tierValues_truthy v _ E). exact E.
Qed.

Lemma specialScore_cases (ty : PlateType) :
  In (orQ (lookup PlateType_eqb ty specialPlateTypes) 1%Q)
     [1%Q; 15%Q; 20%Q; 25%Q; 30%Q].
Proof. destruct ty; simpl; tauto. Qed.

Ltac each_value H :=
  simpl in H;
  repeat (destruct H as [H|H]; [rewrite <- H; clear H | ]);
  [ .. | destruct H ].

Lemma halfInteger_product (a b c d : Q) (n : Z) :
  Spec.HalfInteger a -> Spec.HalfInteger b -> Spec.HalfInteger c ->
  (d == inject_Z n)%Q ->
  exists z : Z, (a * b * c * d * 8 == inject_Z z)%Q.
Proof.
  intros [za Ha] [zb Hb] [zc Hc] Hd.
  exists (za * zb * zc * n)%Z.
  rewrite !inject_Z_mult, <- Ha, <- Hb, <- Hc, Hd. ring.
Qed.

(** On a canonical plate the total is at most 52896000 and a multiple of
    1/8. *)
Lemma canonical_total_exact (plateText : string) :
  Spec.Canonical plateText ->
  (totalScore (calculatePlateScore plateText) <= 52896000)%Q /\
  exists z : Z,
    (totalScore (calculatePlateScore plateText) * 8 == inject_Z z)%Q.
Proof.
  intros Hs. destruct (canonical_parse plateText Hs) as [Hl Hd].
  pose proof (provinceScore_cases plateText) as Hprov.
  pose proof (positionProduct_bound _ (parsed_letters_upper plateText))
    as Hprod.
  rewrite <- (letterSum_positionProduct _ (parsed_letters_upper plateText))
    in Hprod.
  pose proof (digitSum_bound _ (parsed_digits_numeric plateText)) as Hsum.
  cbn [calculatePlateScore totalScore breakdown Breakdown.province] in *.
  set (p := parseTurkishPlate plateText) in *.
  set (prov := orQ _ provinceTiers_default) in *.
  pose proof (letterPatternScore_cases (detectPlateType (letters p))
                (letters p)) as Hpat.
  pose proof (digitScore_cases (orZ (parseInt (digits p)) 1)) as Hdig.
  pose proof (specialScore_cases (detectPlateType (letters p))) as Hspec.
  set (pat := letterPatternScore _ _) in *.
  set (dig := digitScore _) in *.
  set (spec := orQ _ 1%Q) in *.
  assert (Hpow : (26 ^ Z.of_nat (String.length (letters p)) <= 26 ^ 3)%Z)
    by (apply Z.pow_le_mono_r; lia).
  set (ls := letterSum (letters p)) in *.
  set (ds := Scoring.digitSum (digits p)) in *.
  assert (Hls : (1 <= inject_Z ls <= 17576)%Q).
  { split; [change 1%Q with (inject_Z 1) | change 17576%Q with (inject_Z 17576)];
      rewrite <- Zle_Qle; change (26 ^ 3)%Z with 17576%Z in Hpow; lia. }
  assert (Hds : (0 <= inject_Z ds <= 36)%Q).
  { split; [change 0%Q with (inject_Z 0) | change 36%Q with (inject_Z 36)];
      rewrite <- Zle_Qle; lia. }
  split.
  - assert (Ha : (0 <= pat + inject_Z ls + inject_Z ds <= 17632)%Q)
      by (each_value Hpat; lra).
    assert (Hb : (0 <= dig <= 10)%Q) by (each_value Hdig; lra).
    assert (Hc : (0 <= prov <= 10)%Q) by (each_value Hprov; lra).
    assert (He : (0 <= spec <= 30)%Q) by (each_value Hspec; lra).
    clearbody pat dig prov spec ls ds.
    assert (0 <= (pat + inject_Z ls + inject_Z ds) * dig <= 176320)%Q by nra.
    assert (0 <= (pat + inject_Z ls + inject_Z ds) * dig * prov <= 1763200)%Q
      by nra.
    nra.
  - assert (Ha : Spec.HalfInteger (pat + inject_Z ls + inject_Z ds)).
    { each_value Hpat;
        [exists (2 + 2 * ls + 2 * ds)%Z | exists (10 + 2 * ls + 2 * ds)%Z
        | exists (20 + 2 * ls + 2 * ds)%Z | exists (40 + 2 * ls + 2 * ds)%Z
        | exists (15 + 2 * ls + 2 * ds)%Z ];
        rewrite !inject_Z_plus, !inject_Z_mult; cbn [inject_Z]; field. }
    assert (Hb : Spec.HalfInteger dig).
    { each_value Hdig;
        [exists 20%Z | exists 10%Z | exists 5%Z | exists 2%Z]; reflexivity. }
    assert (Hc : Spec.HalfInteger prov).
    { each_value Hprov;
        [exists 2%Z | exists 3%Z | exists 5%Z | exists 10%Z | exists 20%Z];
        reflexivity. }
    assert (He : exists n : Z, (spec == inject_Z n)%Q).
    { each_value Hspec;
        [exists 1%Z | exists 15%Z | exists 20%Z | exists 25%Z | exists 30%Z];
        reflexivity. }
    destruct He as [n He].
    exact (halfInteger_product _ _ _ _ n Ha Hb Hc He).
Qed.

(** ** Further properties of the parser *)

(** X1: whatever the text, the province code of the parsed plate is empty
    or made of two digits, its letter block holds letters [A]-[Z] only
    and its digit block digits only. *)
Theorem X1_parsed_plate_well_formed (plateText : string) :
  (provinceCode (parseTurkishPlate plateText) = "" \/
   String.length (provinceCode (parseTurkishPlate plateText)) = 2 /\
   Spec.allOf isDigit (provinceCode (parseTurkishPlate plateText)) = true) /\
  Spec.allOf isUpper (letters (parseTurkishPlate plateText)) = true /\
  Spec.allOf isDigit (digits (parseTurkishPlate plateText)) = true.
Proof.
  split; [|split; [apply parsed_letters_upper | apply parsed_digits_numeric]].
  destruct (parsed_provinceCode_shape plateText) as [H|(a & b & H & Ha & Hb)];
    cbv zeta in H; rewrite H; [left; reflexivity | right].
  split; [reflexivity|]. rewrite !allOf_cons, Ha, Hb. reflexivity.
Qed.

(** X2: when the normalized text is two digits, then letters, then
    digits, in any number, the parser returns the two digits as the
    province code, the letters and the digits. *)
Theorem X2_parse_two_digit_province (plateText : string) (a b : ascii)
    (l d : string) :
  Spec.normalize plateText = String a (String b (l ++ d)) ->
  isDigit a = true -> isDigit b = true ->
  Spec.allOf isUpper l = true -> Spec.allOf isDigit d = true ->
  parseTurkishPlate plateText =
    {| provinceCode := String a (String b ""); letters := l; digits := d |}.
Proof. apply parse_two_digit_province. Qed.

Lemma X2_parse_two_digit_province_witness :
  parseTurkishPlate "34-abcd 01234" =
    {| provinceCode := "34"; letters := "ABCD"; digits := "01234" |}.
Proof.
  apply (X2_parse_two_digit_province "34-abcd 01234" "3" "4" "ABCD" "01234");
    reflexivity.
Defined.

(** X3: when the normalized text is one digit, then one or more letters,
    then digits, the parser returns the digit padded with a zero as the
    province code, the letters without the first one, and the digits. *)
Theorem X3_parse_one_digit_province (plateText : string) (a x : ascii)
    (l d : string) :
  Spec.normalize plateText = String a (String x l ++ d) ->
  isDigit a = true ->
  Spec.allOf isUpper (String x l) = true -> Spec.allOf isDigit d = true ->
  parseTurkishPlate plateText =
    {| provinceCode := String "0" (String a ""); letters := l; digits := d |}.
Proof. apply parse_one_digit_province. Qed.

Lemma X3_parse_one_digit_province_witness :
  parseTurkishPlate "6 a-123" =
    {| provinceCode := "06"; letters := ""; digits := "123" |}.
Proof.
  apply (X3_parse_one_digit_province "6 a-123" "6" "A" "" "123"); reflexivity.
Defined.

(** *** The two normalizations *)

Lemma stripSeparators_app (a b : string) :
  stripSeparators (a ++ b) = stripSeparators a ++ stripSeparators b.
Proof.
  induction a as [|c a IH]; [reflexivity|].
  cbn [append stripSeparators]. rewrite IH.
  destruct (isSeparator c); reflexivity.
Qed.

Lemma toUpperCase_app (a b : string) :
  toUpperCase (a ++ b) = toUpperCase a ++ toUpperCase b.
Proof.
  induction a as [|c a IH]; [reflexivity|].
  cbn [append toUpperCase]. rewrite IH.
  generalize (upperChar c) as u. intros u.
  induction u as [|y u IHu]; [reflexivity|]. cbn [append]. rewrite IHu.
  reflexivity.
Qed.

(** A separator has no upper-case form of its own, and the upper-case
    form of another character holds no separator. *)
Lemma stripSeparators_upperChar (c : ascii) :
  stripSeparators (upperChar c) = if isSeparator c then "" else upperChar c.
Proof.
  destruct c as [b0 b1 b2 b3 b4 b5 b6 b7].
  destruct b0, b1, b2, b3, b4, b5, b6, b7; vm_compute; reflexivity.
Qed.

Lemma isSeparator_upperChar (c : ascii) :
  isSeparator c = true -> upperChar c = String c "".
Proof.
  destruct c as [b0 b1 b2 b3 b4 b5 b6 b7].
  destruct b0, b1, b2, b3, b4, b5, b6, b7; vm_compute;
    first [discriminate | reflexivity].
Qed.

Lemma toUpperCase_upperChar (c : ascii) :
  toUpperCase (upperChar c) = upperChar c.
Proof.
  destruct c as [b0 b1 b2 b3 b4 b5 b6 b7].
  destruct b0, b1, b2, b3, b4, b5, b6, b7; vm_compute; reflexivity.
Qed.

Lemma normalizeInput_normalize (s : string) :
  Bot.normalizeInput s = Spec.normalize s.
Proof.
  unfold Bot.normalizeInput, Spec.normalize.
  induction s as [|c s IH]; [reflexivity|].
  cbn [toUpperCase stripSeparators].
  rewrite stripSeparators_app, stripSeparators_upperChar, IH.
  destruct (isSeparator c); reflexivity.
Qed.

Lemma stripSeparators_idempotent (s : string) :
  stripSeparators (stripSeparators s) = stripSeparators s.
Proof.
  induction s as [|c s IH]; [reflexivity|].
  cbn [stripSeparators]. destruct (isSeparator c) eqn:E; [exact IH|].
  cbn [stripSeparators]. rewrite E, IH. reflexivity.
Qed.

Lemma toUpperCase_idempotent (s : string) :
  toUpperCase (toUpperCase s) = toUpperCase s.
Proof.
  induction s as [|c s IH]; [reflexivity|].
  cbn [toUpperCase]. rewrite toUpperCase_app, toUpperCase_upperChar, IH.
  reflexivity.
Qed.

Lemma normalize_idempotent (s : string) :
  Spec.normalize (Spec.normalize s) = Spec.normalize s.
Proof.
  rewrite <- (normalizeInput_normalize (Spec.normalize s)).
  unfold Bot.normalizeInput, Spec.normalize.
  rewrite toUpperCase_idempotent.
  fold (Bot.normalizeInput (stripSeparators s)).
  rewrite normalizeInput_normalize. unfold Spec.normalize.
  rewrite stripSeparators_idempotent. reflexivity.
Qed.

Lemma normalized_input_parses_alike (input : string) :
  parseTurkishPlate (Bot.normalizeInput input) = parseTurkishPlate input.
Proof.
  unfold parseTurkishPlate.
  fold (Spec.normalize (Bot.normalizeInput input)).
  fold (Spec.normalize input).
  rewrite normalizeInput_normalize, normalize_idempotent. reflexivity.
Qed.

Lemma normalized_input_scores_alike (input : string) :
  calculatePlateScore (Bot.normalizeInput input) = calculatePlateScore input.
Proof.
  unfold calculatePlateScore.
  rewrite normalized_input_parses_alike. reflexivity.
Qed.

(** X4: the handlers upper-case the text before they strip the
    separators, the parser strips before it upper-cases; both give the
    same text, and the engine returns for the text a handler has
    normalized what it returns for the text as typed. *)
Theorem X4_normalized_input_scores_alike (input : string) :
  Bot.normalizeInput input = toUpperCase (stripSeparators input) /\
  parseTurkishPlate (Bot.normalizeInput input) = parseTurkishPlate input /\
  calculatePlateScore (Bot.normalizeInput input) = calculatePlateScore input.
Proof.
  split; [apply normalizeInput_normalize|].
  split; [apply normalized_input_parses_alike
         | apply normalized_input_scores_alike].
Qed.

(** ** Further properties of the classifier *)

Lemma code_inj (a b : ascii) : code a = code b -> a = b.
Proof.
  unfold code. intros H.
  rewrite <- (ascii_N_embedding a), <- (ascii_N_embedding b), H. reflexivity.
Qed.

Lemma ltb_cons (x y : ascii) (a b : string) :
  JS.ltb (String x a) (String y b) =
  ((code x <? code y) || ((code x =? code y) && JS.ltb a b))%N.
Proof.
  cbn [JS.ltb].
  destruct (N.ltb_spec (code x) (code y)) as [H|H]; [reflexivity|].
  destruct (N.ltb_spec (code y) (code x)) as [H'|H'];
    destruct (N.eqb_spec (code x) (code y)); try reflexivity; lia.
Qed.

(** X5: only a block of one, two or three characters is given a special
    type; the empty block and every longer block are standard plates. *)
Theorem X5_special_types_have_short_blocks (l : string) :
  detectPlateType l <> STANDARD -> 1 <= String.length l <= 3.
Proof.
  unfold detectPlateType. intros H.
  repeat match type of H with
         | (if ?b then _ else _) <> _ =>
             let E := fresh "E" in destruct b eqn:E
         end;
    try (exfalso; apply H; reflexivity);
    repeat match goal with
           | E : (_ || _) = true |- _ => apply orb_prop in E as [E|E]
           | E : (_ && _) = true |- _ => apply andb_prop in E as [E _]
           | E : (_ =? _)%string = true |- _ =>
               apply String.eqb_eq in E; subst l
           | E : (_ =? _)%nat = true |- _ => apply Nat.eqb_eq in E
           end;
    cbn; lia.
Qed.

Lemma X5_special_types_have_short_blocks_witness :
  1 <= String.length "JAA" <= 3.
Proof.
  apply (X5_special_types_have_short_blocks "JAA"). discriminate.
Defined.

(** X6: a block is a foreign-resident plate exactly when it is [M]
    followed by one letter [A]-[Z]. *)
Theorem X6_foreign_blocks (l : string) :
  detectPlateType l = FOREIGN <->
  exists c : ascii, l = String "M" (String c "") /\ isUpper c = true.
Proof.
  split.
  - unfold detectPlateType. intros H.
    repeat match type of H with
           | (if ?b then _ else _) = _ =>
               let E := fresh "E" in destruct b eqn:E
           end; try discriminate.
    apply andb_prop in E5 as [E5 Hhi]. apply andb_prop in E5 as [Hlen Hlo].
    apply Nat.eqb_eq in Hlen.
    destruct l as [|a [|c [|x l]]]; try discriminate.
    unfold JS.geb in Hlo. unfold JS.leb in Hhi.
    rewrite ltb_cons in Hlo, Hhi. rewrite ltb_cons in Hlo, Hhi.
    cbn [JS.ltb] in Hlo, Hhi. rewrite !andb_false_r, !orb_false_r in Hlo, Hhi.
    apply negb_true_iff, orb_false_iff in Hlo as [Hlo1 Hlo2].
    apply negb_true_iff, orb_false_iff in Hhi as [Hhi1 Hhi2].
    apply N.ltb_ge in Hlo1, Hhi1.
    assert (Ha : code a = code "M"%char) by lia.
    apply code_inj in Ha. subst a.
    rewrite N.eqb_refl in Hlo2, Hhi2. cbn [andb] in Hlo2, Hhi2.
    apply N.ltb_ge in Hlo2, Hhi2.
    exists c. split; [reflexivity|].
    unfold isUpper, between.
    apply andb_true_intro; split; apply N.leb_le; assumption.
  - intros (c & -> & Hc). unfold isUpper, between in Hc.
    apply andb_prop in Hc as [Hlo Hhi].
    apply N.leb_le in Hlo. apply N.leb_le in Hhi.
    unfold detectPlateType.
    cbn [String.eqb Ascii.eqb Bool.eqb andb orb String.length Nat.eqb].
    unfold JS.geb, JS.leb. rewrite !ltb_cons. cbn [JS.ltb].
    rewrite !andb_false_r, !orb_false_r, !N.eqb_refl, !N.ltb_irrefl.
    cbn [andb orb].
    assert (H1 : (code c <? code "A"%char)%N = false)
      by (apply N.ltb_ge; exact Hlo).
    assert (H2 : (code "Z"%char <? code c)%N = false)
      by (apply N.ltb_ge; exact Hhi).
    rewrite H1, H2. reflexivity.
Qed.

Ltac compare_codes :=
  repeat (first
            [ match goal with
              | H : context [(?a <? ?b)%N] |- _ => destruct (N.ltb_spec a b)
              | H : context [(?a =? ?b)%N] |- _ => destruct (N.eqb_spec a b)
              | |- context [(?a <? ?b)%N] => destruct (N.ltb_spec a b)
              | |- context [(?a =? ?b)%N] => destruct (N.eqb_spec a b)
              end ];
          cbn [andb orb negb] in *;
          try discriminate; try reflexivity; try lia).

(** X7: a block of letters [A]-[Z] is a taxi plate exactly when it is
    [T], then a letter from [A] to [K], then one more letter. *)
Theorem X7_taxi_blocks (l : string) :
  Spec.allOf isUpper l = true ->
  (detectPlateType l = TAXI <->
   exists x y : ascii,
     l = String "T" (String x (String y "")) /\ (code x <= 75)%N).
Proof.
  intros Hl. split.
  - unfold detectPlateType. intros H.
    repeat match type of H with
           | (if ?b then _ else _) = _ =>
               let E := fresh "E" in destruct b eqn:E
           end; try discriminate.
    apply andb_prop in E6 as [E6 Hhi]. apply andb_prop in E6 as [Hlen Hlo].
    apply Nat.eqb_eq in Hlen.
    destruct l as [|a [|x [|y [|z l]]]]; try discriminate.
    unfold JS.geb in Hlo. unfold JS.leb in Hhi.
    rewrite !ltb_cons in Hlo, Hhi. cbn [JS.ltb] in Hlo, Hhi.
    change (code "T"%char) with 84%N in *.
    change (code "K"%char) with 75%N in *.
    assert (Ha : code a = 84%N /\ (code x <= 75)%N).
    { compare_codes. }
    destruct Ha as [Ha Hx]. apply (code_inj a "T"%char) in Ha. subst a.
    exists x, y. split; [reflexivity | exact Hx].
  - intros (x & y & -> & Hx).
    rewrite !allOf_cons in Hl.
    apply andb_prop in Hl as [_ Hl]. apply andb_prop in Hl as [Hx' Hl].
    apply andb_prop in Hl as [Hy _].
    unfold isUpper, between in Hx', Hy.
    apply andb_prop in Hx' as [Hx1 _]. apply andb_prop in Hy as [Hy1 Hy2].
    apply N.leb_le in Hx1, Hy1, Hy2.
    unfold detectPlateType.
    cbn [String.eqb Ascii.eqb Bool.eqb andb orb String.length Nat.eqb].
    unfold JS.geb, JS.leb. rewrite !ltb_cons. cbn [JS.ltb].
    change (code "T"%char) with 84%N. change (code "K"%char) with 75%N.
    change (code "A"%char) with 65%N. change (code "Z"%char) with 90%N.
    compare_codes.
Qed.

Lemma X7_taxi_blocks_witness :
  detectPlateType "TKZ" = TAXI <->
  exists x y : ascii,
    "TKZ" = String "T" (String x (String y "")) /\ (code x <= 75)%N.
Proof. apply (X7_taxi_blocks "TKZ"). reflexivity. Defined.

(** ** Further properties of the letter score *)

(** X8: the letter score before the product is added is 1, 5, 7.5 or
    10; the 20 the first adjustment writes for three or more equal
    letters never survives the second one. *)
Theorem X8_pattern_score_values (ty : PlateType) (l : string) :
  In (letterPatternScore ty l) [1%Q; 5%Q; 7.5%Q; 10%Q] /\
  ~ (letterPatternScore ty l == 20)%Q.
Proof.
  unfold letterPatternScore, allSameBoost, repeatOrSequence.
  destruct (distinct l =? 1)%nat, (3 <=? String.length l)%nat;
    cbn [andb];
    repeat match goal with
           | |- context [if ?b then _ else _] => destruct b
           end;
    (split; [simpl; tauto | intros H; discriminate H]).
Qed.

Lemma startsWith_prefix (s p : string) :
  startsWith s p = true <-> exists after : string, s = p ++ after.
Proof.
  revert s. induction p as [|y p IH]; intros s; cbn [startsWith append].
  - split; [intros _; exists s; reflexivity | destruct s; reflexivity].
  - destruct s as [|x s].
    + split; [discriminate | intros [after H]; discriminate].
    + cbn [startsWith]. split.
      * intros H. apply andb_prop in H as [Hx Hs].
        apply Ascii.eqb_eq in Hx. subst y.
        apply IH in Hs as [after ->]. exists after. reflexivity.
      * intros [after H]. injection H as -> ->.
        rewrite Ascii.eqb_refl. apply IH. exists after. reflexivity.
Qed.

Lemma includes_occurs (s p : string) :
  includes s p = true <-> Props.Occurs p s.
Proof.
  unfold Props.Occurs. induction s as [|x s IH]; cbn [includes].
  - rewrite orb_false_r, startsWith_prefix. split.
    + intros [after H]. exists "", after. exact H.
    + intros (before & after & H). destruct before; [|discriminate].
      exists after. exact H.
  - split.
    + intros H. apply orb_prop in H as [H|H].
      * apply startsWith_prefix in H as [after H]. exists "", after. exact H.
      * apply IH in H as (before & after & ->).
        exists (String x before), after. reflexivity.
    + intros (before & after & H). apply orb_true_intro.
      destruct before as [|y before].
      * left. apply startsWith_prefix. exists after. exact H.
      * right. apply IH. injection H as _ ->. exists before, after.
        reflexivity.
Qed.

Lemma length_append (a b : string) :
  String.length (a ++ b) = String.length a + String.length b.
Proof. induction a as [|c a IH]; cbn; [|rewrite IH]; reflexivity. Qed.

Lemma sequentialPatterns_length (pattern : string) :
  In pattern sequentialPatterns -> String.length pattern = 3.
Proof.
  unfold sequentialPatterns. intros H.
  repeat (destruct H as [H|H]; [subst pattern; reflexivity|]). destruct H.
Qed.

Lemma isSequential_occurs (l : string) :
  isSequential l = true <->
  exists pattern : string,
    In pattern sequentialPatterns /\ Props.Occurs pattern l.
Proof.
  unfold isSequential. rewrite existsb_exists.
  split; intros (pattern & Hin & Hp); exists pattern;
    (split; [exact Hin | apply includes_occurs; exact Hp]).
Qed.

(** X9: [isSequential] holds for the blocks in which one of the 21
    sequences occurs, and so for no block of fewer than three letters. *)
Theorem X9_isSequential_occurrence (l : string) :
  (isSequential l = true <->
   exists pattern : string,
     In pattern sequentialPatterns /\ Props.Occurs pattern l) /\
  (String.length l < 3 -> isSequential l = false).
Proof.
  pose proof (isSequential_occurs l) as H.
  split; [exact H|].
  intros Hlen. destruct (isSequential l) eqn:E; [|reflexivity].
  apply isSequential_occurs in E as (pattern & Hin & before & after & ->).
  apply sequentialPatterns_length in Hin.
  rewrite !length_append in Hlen. lia.
Qed.

Lemma X9_isSequential_occurrence_witness : isSequential "AB" = false.
Proof.
  apply (proj2 (X9_isSequential_occurrence "AB")). cbn. lia.
Defined.

Lemma sequentialPatterns_score (l : string) :
  In l sequentialPatterns -> letterPatternScore (detectPlateType l) l = 5%Q.
Proof.
  unfold sequentialPatterns. intros H.
  repeat (destruct H as [H|H]; [subst l; reflexivity|]). destruct H.
Qed.

(** X10: for a block of at most three letters, as every plate of the
    canonical shape has, the letter score before the product is 5
    exactly when the block is one of the 21 sequences. *)
Theorem X10_sequence_bonus (l : string) :
  String.length l <= 3 ->
  (letterPatternScore (detectPlateType l) l = 5%Q <->
   In l sequentialPatterns).
Proof.
  intros Hlen. split; [|apply sequentialPatterns_score].
  intros H.
  assert (Hs : isSequential l = true).
  { revert H. unfold letterPatternScore, allSameBoost, repeatOrSequence.
    destruct (isSequential l); [reflexivity|].
    repeat match goal with
           | |- context [if ?b then _ else _] => destruct b
           end; discriminate. }
  apply isSequential_occurs in Hs.
  destruct Hs as (pattern & Hin & before & after & ->).
  pose proof (sequentialPatterns_length pattern Hin) as Hp.
  rewrite !length_append in Hlen.
  destruct before; [|cbn in Hlen; lia].
  destruct after; [|cbn in Hlen; lia].
  cbn [append]. rewrite append_empty_r. exact Hin.
Qed.

Lemma X10_sequence_bonus_witness :
  letterPatternScore (detectPlateType "STU") "STU" = 5%Q <->
  In "STU" sequentialPatterns.
Proof. apply (X10_sequence_bonus "STU"). cbn. lia. Defined.

(** ** Further properties of the score *)

(** X11: the multiplier of a plate is the entry of its type in
    [specialPlateTypes], every type has one, and a plate of a special
    type is multiplied by 15 at least and 30 at most. *)
Theorem X11_special_multiplier (plateText : string) :
  In (plateType (calculatePlateScore plateText),
      Breakdown.special (breakdown (calculatePlateScore plateText)))
     specialPlateTypes /\
  (plateType (calculatePlateScore plateText) <> STANDARD ->
   (15 <= Breakdown.special (breakdown (calculatePlateScore plateText))
       <= 30)%Q).
Proof.
  cbn [calculatePlateScore plateType breakdown Breakdown.special].
  destruct (detectPlateType (letters (parseTurkishPlate plateText)));
    (split; [cbn; tauto | intros H; try (exfalso; apply H; reflexivity)]);
    cbn; split; discriminate.
Qed.

Lemma X11_special_multiplier_witness :
  (15 <= Breakdown.special (breakdown (calculatePlateScore "34CD001"))
      <= 30)%Q.
Proof.
  apply (proj2 (X11_special_multiplier "34CD001")). discriminate.
Defined.

(** X12: on a text of the canonical shape the total score is at most
    52896000 and a multiple of 1/8. *)
Theorem X12_canonical_total_bounded (plateText : string) :
  Spec.Canonical plateText ->
  (totalScore (calculatePlateScore plateText) <= 52896000)%Q /\
  exists z : Z,
    (totalScore (calculatePlateScore plateText) * 8 == inject_Z z)%Q.
Proof. apply canonical_total_exact. Qed.

Lemma X12_canonical_total_bounded_witness :
  (totalScore (calculatePlateScore "34ZZZ9999") <= 52896000)%Q /\
  exists z : Z,
    (totalScore (calculatePlateScore "34ZZZ9999") * 8 == inject_Z z)%Q.
Proof.
  apply (X12_canonical_total_bounded "34ZZZ9999").
  exists "34", "ZZZ", "9999". cbn. repeat split; lia.
Defined.

(** *** The digit block as a number *)

Lemma digitValue_digit (c : ascii) :
  isDigit c = true -> digitValue 10 c = Some (Z.of_N (code c) - 48)%Z.
Proof.
  intros H. unfold digitValue. rewrite H.
  unfold isDigit, between in H. apply andb_prop in H as [_ H].
  apply N.leb_le in H.
  destruct (Z.ltb_spec (Z.of_N (code c) - 48) 10); [reflexivity | lia].
Qed.

Lemma readDigits_digits (s : string) (acc : Z) :
  Spec.allOf isDigit s = true ->
  readDigits 10 (Some acc) s =
  Some (fold_left (fun n c => (n * 10 + (Z.of_N (code c) - 48))%Z)
          (list_ascii_of_string s) acc).
Proof.
  revert acc. induction s as [|c s IH]; intros acc H; [reflexivity|].
  rewrite allOf_cons in H. apply andb_prop in H as [Hc Hs].
  cbn [readDigits list_ascii_of_string fold_left].
  rewrite (digitValue_digit c Hc). apply IH, Hs.
Qed.

(** On a digit followed by digits, [parseInt] finds no white space, no
    sign and no [0x] to skip. *)
Ltac skip_nothing :=
  unfold parseInt; cbv - [readDigits Z.mul option_map];
  match goal with
  | |- option_map _ ?x = _ =>
      destruct x; [cbn [option_map]; rewrite Z.mul_1_l|]; reflexivity
  end.

Lemma parseInt_reads_digits (c : ascii) (s : string) :
  isDigit c = true -> Spec.allOf isDigit s = true ->
  parseInt (String c s) = readDigits 10 None (String c s).
Proof.
  intros Hc Hs.
  destruct c as [b0 b1 b2 b3 b4 b5 b6 b7].
  destruct b0, b1, b2, b3, b4, b5, b6, b7; try discriminate Hc;
    try skip_nothing.
  destruct s as [|c2 s]; [reflexivity|].
  rewrite allOf_cons in Hs. apply andb_prop in Hs as [Hc2 _].
  destruct c2 as [b0 b1 b2 b3 b4 b5 b6 b7].
  destruct b0, b1, b2, b3, b4, b5, b6, b7; try discriminate Hc2;
    skip_nothing.
Qed.

Lemma parseInt_digit_block (d : string) :
  Spec.allOf isDigit d = true -> d <> "" ->
  parseInt d = Some (Props.decimalValue d).
Proof.
  intros Hd Hne. destruct d as [|c d]; [contradiction|].
  rewrite allOf_cons in Hd. apply andb_prop in Hd as [Hc Hd].
  rewrite (parseInt_reads_digits c d Hc Hd).
  cbn [readDigits]. rewrite (digitValue_digit c Hc).
  rewrite (readDigits_digits d _ Hd). reflexivity.
Qed.

Lemma decimalValue_from_nonneg (cs : list ascii) (acc : Z) :
  forallb isDigit cs = true -> (0 <= acc)%Z ->
  (0 <= fold_left (fun n c => n * 10 + (Z.of_N (code c) - 48)) cs acc)%Z.
Proof.
  revert acc. induction cs as [|c cs IH]; intros acc H Hacc; [exact Hacc|].
  cbn [forallb] in H. apply andb_prop in H as [Hc Hcs].
  cbn [fold_left]. apply IH; [exact Hcs|].
  unfold isDigit, between in Hc. apply andb_prop in Hc as [Hc _].
  apply N.leb_le in Hc. lia.
Qed.

(** X13: for a block of one or more decimal digits that denotes a number
    below 2^53, [parseInt] returns that number, and the digit tier is
    the tier of the number, or of 1 when the number is 0. *)
Theorem X13_parseInt_digit_block (d : string) :
  Spec.allOf isDigit d = true -> d <> "" ->
  (Props.decimalValue d < 2 ^ 53)%Z ->
  parseInt d = Some (Props.decimalValue d) /\
  digitScore (orZ (parseInt d) 1) =
    digitScore (Z.max 1 (Props.decimalValue d)).
Proof.
  intros Hd Hne _.
  rewrite (parseInt_digit_block d Hd Hne). split; [reflexivity|].
  pose proof (decimalValue_from_nonneg _ 0%Z Hd (Z.le_refl 0)) as H.
  fold (Props.decimalValue d) in H. cbn [orZ].
  destruct (Z.eqb_spec (Props.decimalValue d) 0) as [E|E];
    f_equal; lia.
Qed.

Lemma X13_parseInt_digit_block_witness :
  parseInt "0042" = Some 42%Z /\
  digitScore (orZ (parseInt "0042") 1) = digitScore (Z.max 1 42).
Proof.
  apply (X13_parseInt_digit_block "0042");
    [reflexivity | discriminate | reflexivity].
Defined.

(** X14: a zero put before a block of digits leaves the number the
    digit tier is read from as it is, and adds 1 to the digit sum. *)
Theorem X14_leading_zero (d : string) :
  Spec.allOf isDigit d = true -> d <> "" ->
  orZ (parseInt (String "0" d)) 1 = orZ (parseInt d) 1 /\
  Scoring.digitSum (String "0" d) = (Scoring.digitSum d + 1)%Z.
Proof.
  intros Hd Hne. split.
  - rewrite (parseInt_digit_block d Hd Hne).
    rewrite (parseInt_digit_block (String "0" d)); [|exact Hd|discriminate].
    reflexivity.
  - rewrite !digitSum_zeros. unfold Spec.digitSum, Spec.zeros.
    cbn [list_ascii_of_string fold_right count_occ].
    destruct (ascii_dec "0" "0") as [_|H]; [|contradiction].
    change (Spec.digitContribution "0") with 0%Z. lia.
Qed.

Lemma X14_leading_zero_witness :
  orZ (parseInt "007") 1 = orZ (parseInt "07") 1 /\
  Scoring.digitSum "007" = (Scoring.digitSum "07" + 1)%Z.
Proof. apply (X14_leading_zero "07"); [reflexivity | discriminate]. Defined.

(** X15: the digit tier never grows with the number: of two numbers the
    larger has the lower tier, or the same. *)
Theorem X15_digitScore_antitone (n m : Z) :
  (n <= m)%Z -> (digitScore m <= digitScore n)%Q.
Proof.
  intros H. unfold digitScore.
  destruct (Z.leb_spec n 9), (Z.leb_spec n 99), (Z.leb_spec n 999),
    (Z.leb_spec m 9), (Z.leb_spec m 99), (Z.leb_spec m 999);
    try lia; discriminate.
Qed.

Lemma X15_digitScore_antitone_witness :
  (digitScore 1234 <= digitScore 7)%Q.
Proof. apply (X15_digitScore_antitone 7 1234). lia. Defined.

(** ** The presentation helpers *)

(** X16: every plate type has a display name in [displayNames], which
    [getPlateTypeDisplay] returns in place of the code, and two
    different types are never shown under the same name. *)
Theorem X16_display_names :
  (forall ty : PlateType,
     In (Bot.plateTypeName ty,
         Bot.getPlateTypeDisplay (Bot.plateTypeName ty)) Bot.displayNames) /\
  (forall a b : PlateType,
     Bot.getPlateTypeDisplay (Bot.plateTypeName a) =
     Bot.getPlateTypeDisplay (Bot.plateTypeName b) -> a = b).
Proof.
  split.
  - intros ty. destruct ty; cbn; tauto.
  - intros a b. destruct a, b; cbn; intros H;
      first [reflexivity | discriminate H].
Qed.

Lemma Qle_bool_false (a b : Q) : Qle_bool a b = false -> (b < a)%Q.
Proof.
  intros H. apply Qnot_le_lt. intros Hle.
  apply Qle_bool_iff in Hle. congruence.
Qed.

Ltac split_bands :=
  unfold Bot.getScoreEmoji, Bot.getScoreColor, Bot.geq;
  repeat match goal with
         | |- context [Qle_bool ?a ?b] =>
             let E := fresh "E" in
             destruct (Qle_bool a b) eqn:E;
             [apply Qle_bool_iff in E | apply Qle_bool_false in E]
         end.

(** X17: the symbol and the colour of a score go together: two scores
    have the same symbol exactly when they have the same colour. *)
Theorem X17_emoji_and_color_agree (s1 s2 : Q) :
  Bot.getScoreEmoji s1 = Bot.getScoreEmoji s2 <->
  Bot.getScoreColor s1 = Bot.getScoreColor s2.
Proof.
  unfold Bot.getScoreEmoji, Bot.getScoreColor.
  destruct (Bot.geq s1 1000), (Bot.geq s1 500), (Bot.geq s1 250),
    (Bot.geq s1 100), (Bot.geq s1 50),
    (Bot.geq s2 1000), (Bot.geq s2 500), (Bot.geq s2 250),
    (Bot.geq s2 100), (Bot.geq s2 50);
    split; intros H; first [reflexivity | discriminate H].
Qed.

(** X18: the bands are ordered: a higher score never gets the symbol of
    a lower band, and the lowest band is that of the scores below 50,
    the highest that of the scores from 1000. *)
Theorem X18_emoji_monotone (s1 s2 : Q) :
  ((s1 <= s2)%Q ->
   Props.band (Bot.getScoreEmoji s1) <= Props.band (Bot.getScoreEmoji s2)) /\
  (Bot.getScoreEmoji s1 = Bot.SmallBlueDiamond <-> (s1 < 50)%Q) /\
  (Bot.getScoreEmoji s1 = Bot.GemStone <-> (1000 <= s1)%Q).
Proof.
  split; [|split].
  - intros H. split_bands; cbn [Props.band]; first [lia | exfalso; lra].
  - split_bands; split; intros H'; first [discriminate H' | reflexivity | lra].
  - split_bands; split; intros H'; first [discriminate H' | reflexivity | lra].
Qed.

Lemma X18_emoji_monotone_witness :
  Props.band (Bot.getScoreEmoji 33.75) <= Props.band (Bot.getScoreEmoji 1500).
Proof.
  apply (proj1 (X18_emoji_monotone 33.75 1500)). discriminate.
Defined.

(** ** The validation of a plate *)

Lemma allOf_empty_prefix (p : ascii -> bool) (c : ascii) (a b s : string) :
  p c = false -> String c s = a ++ b -> Spec.allOf p a = true -> a = "".
Proof.
  intros Hc E Ha. destruct a as [|x a]; [reflexivity|].
  cbn [append] in E. injection E as <- _.
  rewrite allOf_cons, Hc in Ha. discriminate.
Qed.

(** Stopping a repetition: no character is taken. *)
Lemma repeat_none (p : ascii -> bool) (k : string -> bool)
    (min max : nat) (s : string) :
  (min =? 0)%nat && k s = true ->
  exists a b : string,
    s = a ++ b /\ Spec.allOf p a = true /\
    min <= String.length a <= max /\ k b = true.
Proof.
  intros H. apply andb_prop in H as [Hm Hk]. apply Nat.eqb_eq in Hm.
  exists "", s. cbn. repeat split; try assumption; lia.
Qed.

Lemma repeat_none_back (k : string -> bool) (min : nat) (a b s : string) :
  s = a ++ b -> a = "" -> min <= String.length a -> k b = true ->
  (min =? 0)%nat && k s = true.
Proof.
  intros -> -> Hlen Hk. cbn in Hlen |- *.
  replace min with 0 by lia. exact Hk.
Qed.

(** What a greedy bounded repetition accepts. *)
Lemma repeatThen_spec (p : ascii -> bool) (k : string -> bool)
    (max min : nat) (s : string) :
  Bot.repeatThen p k min max s = true <->
  exists a b : string,
    s = a ++ b /\ Spec.allOf p a = true /\
    min <= String.length a <= max /\ k b = true.
Proof.
  revert min s.
  induction max as [|max IH]; intros min s; cbn [Bot.repeatThen].
  - split; [apply repeat_none|].
    intros (a & b & E & _ & Hlen & Hk).
    apply (repeat_none_back k min a b s E); [|lia|exact Hk].
    destruct a; [reflexivity | cbn in Hlen; lia].
  - destruct s as [|c s].
    + split; [apply repeat_none|].
      intros (a & b & E & _ & Hlen & Hk).
      apply (repeat_none_back k min a b "" E); [|lia|exact Hk].
      destruct a; [reflexivity | discriminate].
    + destruct (p c) eqn:Hc.
      * split.
        -- intros H. apply orb_prop in H as [H|H]; [|apply repeat_none, H].
           apply IH in H. destruct H as (a & b & -> & Ha & Hlen & Hk).
           exists (String c a), b. rewrite allOf_cons, Hc, Ha. cbn.
           repeat split; try assumption; lia.
        -- intros (a & b & E & Ha & Hlen & Hk). apply orb_true_intro.
           destruct a as [|x a].
           ++ right.
              apply (repeat_none_back k min "" b _ E);
                [reflexivity | lia | exact Hk].
           ++ left. cbn [append] in E. injection E as <- ->.
              rewrite allOf_cons in Ha. apply andb_prop in Ha as [_ Ha].
              apply IH. exists a, b. cbn in Hlen.
              repeat split; try assumption; lia.
      * split; [apply repeat_none|].
        intros (a & b & E & Ha & Hlen & Hk).
        apply (repeat_none_back k min a b _ E); [|lia|exact Hk].
        apply (allOf_empty_prefix p c a b s Hc E Ha).
Qed.

Lemma atEnd_empty (s : string) : Bot.atEnd s = true <-> s = "".
Proof. destruct s; cbn; split; intros H; try reflexivity; discriminate. Qed.

Lemma matches_plateFormat (s : string) :
  Bot.matches Bot.plateFormat s = true <-> Spec.Canonical s.
Proof.
  unfold Bot.matches, Bot.plateFormat, Spec.Canonical, Spec.Shaped.
  cbn [fold_right Bot.class Bot.atLeast Bot.atMost].
  rewrite repeatThen_spec. split.
  - intros (p & r1 & -> & Hp & Hplen & H).
    apply repeatThen_spec in H as (l & r2 & -> & Hl & Hllen & H).
    apply repeatThen_spec in H as (d & r3 & -> & Hd & Hdlen & H).
    apply atEnd_empty in H. subst r3. rewrite append_empty_r.
    exists p, l, d. repeat split; try assumption; lia.
  - intros (p & l & d & -> & Hp & Hplen & Hl & Hllen & Hd & Hdlen).
    exists p, (l ++ d). repeat split; try assumption; try lia.
    apply repeatThen_spec. exists l, d. repeat split; try assumption; try lia.
    apply repeatThen_spec. exists d, "". rewrite append_empty_r.
    repeat split; try assumption; lia.
Qed.

(** X19: the regular expression of [addplate] accepts exactly the texts
    made of one or two digits, then one to three letters [A]-[Z], then
    one to four digits, and nothing else. *)
Theorem X19_plate_format (s : string) :
  Bot.matches Bot.plateFormat s = true <-> Spec.Canonical s.
Proof. apply matches_plateFormat. Qed.

(** The province code of a canonical text has two characters. *)
Lemma canonical_provinceCode (s : string) :
  Spec.Canonical s -> String.length (provinceCode (parseTurkishPlate s)) = 2.
Proof.
  intros Hs. pose proof (canonical_normalized s Hs) as Hn.
  destruct Hs as (p & l & d & E & Hp & Hplen & Hl & Hllen & Hd & Hdlen).
  destruct p as [|a [|b [|c p]]]; cbn in Hplen; try lia.
  - destruct l as [|x l]; cbn in Hllen; [lia|].
    rewrite allOf_cons in Hp. apply andb_prop in Hp as [Ha _].
    rewrite E in Hn at 2. cbn [append] in Hn.
    rewrite (parse_one_digit_province s a x l d Hn Ha Hl Hd). reflexivity.
  - rewrite !allOf_cons in Hp.
    apply andb_prop in Hp as [Ha Hp]. apply andb_prop in Hp as [Hb _].
    rewrite E in Hn at 2. cbn [append] in Hn.
    rewrite (parse_two_digit_province s a b l d Hn Ha Hb Hl Hd). reflexivity.
Qed.

(** X20: [addplate] replies that the format is invalid exactly when the
    normalized text does not have the canonical shape, whatever the
    database does.  When the text has the shape, the user does not have
    the plate yet and the document is saved, the plate is added; and the
    document of an added plate holds the normalized text, the components
    and the total the engine gives for the text as typed, a province code
    of two characters, at most three letters, one to four digits and a
    total above 0. *)
Theorem X20_addplate_document (userId username input : string)
    (findOne : Bot.Awaited (option Bot.Plate)) (save : Bot.Awaited unit) :
  (Bot.addplate userId username input findOne save = Bot.InvalidFormat <->
   ~ Spec.Canonical (Spec.normalize input)) /\
  (Spec.Canonical (Spec.normalize input) ->
   findOne = Bot.Returned None -> save = Bot.Returned tt ->
   exists doc : Bot.Plate,
     Bot.addplate userId username input findOne save = Bot.Added doc) /\
  (forall doc : Bot.Plate,
     Bot.addplate userId username input findOne save = Bot.Added doc ->
     findOne = Bot.Returned None /\
     Bot.plateText doc = Spec.normalize input /\
     Bot.provinceCode doc = provinceCode (parseTurkishPlate input) /\
     Bot.letters doc = letters (parseTurkishPlate input) /\
     Bot.digits doc = digits (parseTurkishPlate input) /\
     Bot.totalScore doc = totalScore (calculatePlateScore input) /\
     String.length (Bot.provinceCode doc) = 2 /\
     String.length (Bot.letters doc) <= 3 /\
     1 <= String.length (Bot.digits doc) <= 4 /\
     (0 < Bot.totalScore doc)%Q).
Proof.
  unfold Bot.addplate.
  pose proof (normalized_input_parses_alike input) as Hparse.
  pose proof (normalized_input_scores_alike input) as Hscore.
  rewrite Hscore, normalizeInput_normalize.
  destruct (Bot.matches Bot.plateFormat (Spec.normalize input)) eqn:E;
    cbn [negb].
  - apply matches_plateFormat in E. split; [|split].
    + split; [|intros H; contradiction].
      destruct findOne as [|[existing|]]; [discriminate | discriminate|].
      destruct save; discriminate.
    + intros _ -> ->. eexists. reflexivity.
    + intros doc H.
      destruct findOne as [|[existing|]]; [discriminate | discriminate|].
      destruct save as [|u]; [discriminate|].
      apply (f_equal (fun r => match r with
                               | Bot.Added d => d
                               | _ => doc
                               end)) in H.
      cbv beta iota in H. subst doc.
      cbv beta iota delta [Bot.newPlate Bot.plateText Bot.provinceCode
                             Bot.letters Bot.digits Bot.totalScore].
      change (parsed (calculatePlateScore input))
        with (parseTurkishPlate input).
      assert (Hp : parseTurkishPlate (Spec.normalize input)
                   = parseTurkishPlate input)
        by (rewrite <- normalizeInput_normalize; exact Hparse).
      pose proof (canonical_provinceCode _ E) as H1.
      pose proof (canonical_parse _ E) as [H2 H3].
      rewrite Hp in H1, H2, H3.
      repeat split; try reflexivity; try assumption; try lia.
      apply totalScore_pos.
  - assert (Hn : ~ Spec.Canonical (Spec.normalize input)).
    { intros H. apply matches_plateFormat in H. congruence. }
    split; [|split].
    + split; [intros _; exact Hn | reflexivity].
    + intros H. contradiction.
    + intros doc H. discriminate H.
Qed.

Lemma X20_addplate_document_witness :
  exists doc : Bot.Plate,
    Bot.addplate "42" "ada" "34 ab-123" (Bot.Returned None) (Bot.Returned tt)
    = Bot.Added doc.
Proof.
  apply (proj1 (proj2 (X20_addplate_document "42" "ada" "34 ab-123"
                         (Bot.Returned None) (Bot.Returned tt))));
    [|reflexivity|reflexivity].
  exists "34", "AB", "123". cbn. repeat split; lia.
Defined.

(** ** The counts per province *)

Lemma lookup_assign {V : Type} (k k' : string) (v : V)
    (table : list (string * V)) :
  lookup String.eqb k (Bot.assign k' v table) =
  if String.eqb k k' then Some v else lookup String.eqb k table.
Proof.
  induction table as [|[k0 v0] rest IH]; cbn [Bot.assign lookup].
  - reflexivity.
  - destruct (String.eqb_spec k' k0) as [->|Hk]; cbn [lookup].
    + destruct (String.eqb k k0); reflexivity.
    + rewrite IH. destruct (String.eqb_spec k k0) as [->|Hk0];
        [|reflexivity].
      destruct (String.eqb_spec k0 k') as [<-|_]; [contradiction|reflexivity].
Qed.

Lemma keys_assign {V : Type} (k : string) (v : V)
    (table : list (string * V)) :
  Props.keys (Bot.assign k v table) =
  if in_dec string_dec k (Props.keys table) then Props.keys table
  else (Props.keys table ++ [k])%list.
Proof.
  unfold Props.keys.
  induction table as [|[k0 v0] rest IH]; cbn [Bot.assign map fst];
    [reflexivity|].
  destruct (String.eqb_spec k k0) as [->|Hk]; cbn [map fst].
  - destruct (in_dec string_dec k0 (k0 :: map fst rest)) as [_|Hn];
      [reflexivity | exfalso; apply Hn; left; reflexivity].
  - rewrite IH.
    destruct (in_dec string_dec k (map fst rest)) as [Hin|Hn],
      (in_dec string_dec k (k0 :: map fst rest)) as [Hin'|Hn'];
      try reflexivity.
    + exfalso; apply Hn'; right; exact Hin.
    + destruct Hin' as [E|Hin']; [congruence | contradiction].
Qed.

Lemma lookup_keys {V : Type} (k : string) (table : list (string * V)) :
  In k (Props.keys table) <-> lookup String.eqb k table <> None.
Proof.
  unfold Props.keys.
  induction table as [|[k0 v0] rest IH]; cbn [map fst lookup In].
  - split; [contradiction | congruence].
  - destruct (String.eqb_spec k k0) as [->|Hk].
    + split; [discriminate | left; reflexivity].
    + rewrite <- IH. split; [|tauto].
      intros [E|H]; [exfalso; apply Hk; symmetry; exact E | exact H].
Qed.

Lemma counts_step (table : list (string * Z)) (codes : list string)
    (c : string) :
  Props.Counts table codes ->
  Props.Counts
    (Bot.assign c (orZ (lookup String.eqb c table) 0 + 1)%Z table)
    (codes ++ [c])%list.
Proof.
  intros H code. rewrite lookup_assign, count_occ_app.
  cbn [count_occ].
  destruct (String.eqb_spec code c) as [->|Hc].
  - destruct (string_dec c c) as [_|Hn]; [|contradiction].
    rewrite (H c).
    destruct (count_occ string_dec codes c) as [|n] eqn:E; cbn [Nat.eqb orZ].
    + reflexivity.
    + destruct (Z.eqb_spec (Z.of_nat (S n)) 0) as [E0|_]; [lia|].
      replace (S n + 1) with (S (S n)) by lia. cbn [Nat.eqb].
      f_equal. lia.
  - destruct (string_dec c code) as [E|_]; [congruence|].
    rewrite Nat.add_0_r. apply H.
Qed.

Lemma provinceCount_from (plates : list Bot.Plate)
    (table : list (string * Z)) (codes : list string) :
  Props.Counts table codes ->
  Props.Counts
    (fold_left
       (fun provinceCount plate =>
          Bot.assign (Bot.provinceCode plate)
            (orZ (lookup String.eqb (Bot.provinceCode plate) provinceCount) 0
             + 1)%Z provinceCount)
       plates table)
    (codes ++ map Bot.provinceCode plates)%list.
Proof.
  revert table codes.
  induction plates as [|plate plates IH]; intros table codes H;
    cbn [fold_left map].
  - rewrite app_nil_r. exact H.
  - replace (codes ++ Bot.provinceCode plate :: map Bot.provinceCode plates)%list
      with ((codes ++ [Bot.provinceCode plate])
              ++ map Bot.provinceCode plates)%list
      by (rewrite <- app_assoc; reflexivity).
    apply IH, counts_step, H.
Qed.

Lemma provinceCount_counts (plates : list Bot.Plate) :
  Props.Counts (Bot.provinceCount plates) (map Bot.provinceCode plates).
Proof.
  apply (provinceCount_from plates [] []). intros code. reflexivity.
Qed.

Lemma NoDup_keys_from (plates : list Bot.Plate) (table : list (string * Z)) :
  NoDup (Props.keys table) ->
  NoDup
    (Props.keys
       (fold_left
          (fun provinceCount plate =>
             Bot.assign (Bot.provinceCode plate)
               (orZ (lookup String.eqb (Bot.provinceCode plate) provinceCount)
                    0 + 1)%Z provinceCount)
          plates table)).
Proof.
  revert table.
  induction plates as [|plate plates IH]; intros table H; cbn [fold_left];
    [exact H|].
  apply IH. rewrite keys_assign.
  destruct (in_dec string_dec (Bot.provinceCode plate) (Props.keys table))
    as [_|Hn]; [exact H|].
  apply NoDup_app; [exact H | constructor; [intros [] | constructor] |].
  intros k Hk [<-|[]]. contradiction.
Qed.

Lemma provinceCount_keys (plates : list Bot.Plate) (code : string) :
  In code (Props.keys (Bot.provinceCount plates)) <->
  In code (map Bot.provinceCode plates).
Proof.
  rewrite lookup_keys, (provinceCount_counts plates code).
  rewrite (count_occ_In string_dec).
  destruct (count_occ string_dec (map Bot.provinceCode plates) code);
    cbn [Nat.eqb]; split; intros H; try lia;
    first [discriminate | exfalso; apply H; reflexivity].
Qed.

(** X21: the table [provinceCount] built from a collection holds, for
    every province code, the number of plates of the collection with
    that code, and no entry for a code no plate has. *)
Theorem X21_provinceCount_counts (plates : list Bot.Plate) (code : string) :
  Props.Collection plates ->
  lookup String.eqb code (Bot.provinceCount plates) =
  if (Props.platesOf code plates =? 0)%nat then None
  else Some (Z.of_nat (Props.platesOf code plates)).
Proof. intros _. apply provinceCount_counts. Qed.

Lemma stored_collection (userId username : string) (texts : list string) :
  Props.Collection (map (Props.stored userId username) texts).
Proof.
  intros plate H. apply in_map_iff in H as (text & <- & _).
  unfold Props.stored.
  cbv beta iota delta [Bot.newPlate Bot.provinceCode].
  change (parsed (calculatePlateScore text)) with (parseTurkishPlate text).
  destruct (parsed_provinceCode_shape text) as [H|(a & b & H & Ha & Hb)];
    cbv zeta in H; rewrite H; [left; reflexivity | right].
  split; [reflexivity|]. rewrite !allOf_cons, Ha, Hb. reflexivity.
Qed.

Lemma X21_provinceCount_counts_witness :
  lookup String.eqb "34"
    (Bot.provinceCount
       (map (Props.stored "42" "ada") ["34AB123"; "06AB1"; "34CD7"]))
  = Some 2%Z.
Proof.
  apply (X21_provinceCount_counts
           (map (Props.stored "42" "ada") ["34AB123"; "06AB1"; "34CD7"])
           "34").
  apply stored_collection.
Defined.

(** X22: the number of provinces a collection is credited with is the
    number of distinct province codes of its plates. *)
Theorem X22_collectedProvinces_distinct (plates : list Bot.Plate) :
  Props.Collection plates ->
  Bot.collectedProvinces (Bot.provinceCount plates) =
  List.length (nodup string_dec (map Bot.provinceCode plates)).
Proof.
  intros _. unfold Bot.collectedProvinces.
  replace (List.length (Bot.provinceCount plates))
    with (List.length (Props.keys (Bot.provinceCount plates)))
    by apply length_map.
  assert (Hk : NoDup (Props.keys (Bot.provinceCount plates)))
    by (apply (NoDup_keys_from plates []); constructor).
  apply Nat.le_antisymm; apply NoDup_incl_length;
    try assumption; try apply NoDup_nodup;
    intros code H.
  - apply nodup_In, provinceCount_keys, H.
  - apply provinceCount_keys. apply nodup_In in H. exact H.
Qed.

Lemma X22_collectedProvinces_distinct_witness :
  Bot.collectedProvinces
    (Bot.provinceCount
       (map (Props.stored "42" "ada") ["34AB123"; "06AB1"; "34CD7"]))
  = 2.
Proof.
  apply (X22_collectedProvinces_distinct
           (map (Props.stored "42" "ada") ["34AB123"; "06AB1"; "34CD7"])).
  apply stored_collection.
Defined.

(** ** The missing provinces *)






Lemma incl_check (l1 l2 : list string) :
  forallb (fun c => existsb (String.eqb c) l2) l1 = true -> incl l1 l2.
Proof.
  intros H c Hc. rewrite forallb_forall in H. specialize (H c Hc).
  apply existsb_exists in H as (c' & Hin & E).
  apply String.eqb_eq in E. subst c'. exact Hin.
Qed.

(** X24: the codes the loop of [provinces] goes through are the province
    codes of [provinceTiers]: every code that can be reported missing
    has a rarity tier, and every code with a tier is one of the 81. *)
Theorem X24_province_codes_have_tiers (code : string) :
  In code Props.provinceCodes <->
  In code (Props.keys provinceTiers) /\ code <> "default".
Proof.
  split.
  - intros H. split.
    + revert code H. apply incl_check. vm_compute. reflexivity.
    + intros ->. revert H. apply (count_occ_not_In string_dec).
      vm_compute. reflexivity.
  - intros [H Hd].
    assert (H' : In code (filter (fun c => negb (String.eqb c "default"))
                            (Props.keys provinceTiers))).
    { apply filter_In. split; [exact H|].
      apply negb_true_iff, String.eqb_neq, Hd. }
    revert code H' H Hd. intros code H' _ _. revert code H'.
    apply incl_check. vm_compute. reflexivity.
Qed.



